(** * TrendMiner upload validators

    A shallow embedding of [trendminer/validators.py]: the seven form
    validators that decide whether an uploaded [.zip] or [.xml] file is
    acceptable, together with the Python string operations they are
    built from.

    Python raises exceptions; here a validator is a computation in the
    error monad [sum exn] of ExtLib, [inr tt] standing for "returned
    normally" and [inl e] for "raised [e]".  Everything a validator
    learns from outside the process (the output of [file], [xmlwf] and
    [xmllint], what [ZipFile] and [testzip] find on disk, the directory
    listing of an extracted archive) is read from an explicit [Host]
    record.  The command lines of [xmlwf] and [xmllint] go through
    [shlex.split] before the subprocess is started, as in the source. *)

From Stdlib Require Import String Ascii List ZArith Bool Lia DecimalString.
From Stdlib Require Import Permutation.
From ExtLib Require Import Structures.Monad Structures.MonadExc.
From ExtLib Require Import Data.Monads.EitherMonad.
Import ListNotations.
Import MonadNotation.

Local Open Scope string_scope.
Local Open Scope monad_scope.

(* ===================================================================== *)
(** * Python strings *)
(* ===================================================================== *)

(** Python 2 byte strings are modelled as [string], one [ascii] per
    byte; the operations keep their Python names.  File names, MIME
    types and tool output are all such strings. *)
Module PyStr.

(** The double quote character, used when a command line is built. *)
Definition dquote : string := String (ascii_of_nat 34) EmptyString.

(** [s[:n]] *)
Fixpoint slice_to (n : nat) (s : string) : string :=
  match n, s with
  | O, _ => EmptyString
  | S _, EmptyString => EmptyString
  | S n', String c s' => String c (slice_to n' s')
  end.

(** [s[n:]] *)
Fixpoint slice_from (n : nat) (s : string) : string :=
  match n, s with
  | O, _ => s
  | S _, EmptyString => EmptyString
  | S n', String _ s' => slice_from n' s'
  end.

(** [s[i]] for an index known to be in range. *)
Definition item (i : nat) (s : string) : option ascii := String.get i s.

(** [s.endswith(suffix)] *)
Definition endswith (s suffix : string) : bool :=
  (String.length suffix <=? String.length s)%nat &&
  String.eqb (slice_from (String.length s - String.length suffix) s) suffix.

(** One character of [str.lower()]: only [A]..[Z] change. *)
Definition lower_ascii (c : ascii) : ascii :=
  let n := nat_of_ascii c in
  if ((65 <=? n) && (n <=? 90))%nat then ascii_of_nat (n + 32) else c.

(** [s.lower()] *)
Fixpoint lower (s : string) : string :=
  match s with
  | EmptyString => EmptyString
  | String c s' => String (lower_ascii c) (lower s')
  end.

(** The characters [str.strip()] removes: space, tab, newline,
    vertical tab, form feed and carriage return. *)
Definition isspace (c : ascii) : bool :=
  let n := nat_of_ascii c in
  (n =? 32)%nat || ((9 <=? n) && (n <=? 13))%nat.

Fixpoint reversed (s : string) : string :=
  match s with
  | EmptyString => EmptyString
  | String c s' => reversed s' ++ String c EmptyString
  end.

(** [s.lstrip()] *)
Fixpoint lstrip (s : string) : string :=
  match s with
  | EmptyString => EmptyString
  | String c s' => if isspace c then lstrip s' else s
  end.

(** [s.rstrip()] *)
Definition rstrip (s : string) : string := reversed (lstrip (reversed s)).

(** [s.strip()] *)
Definition strip (s : string) : string := rstrip (lstrip s).

(** [s.split(sep)] for a non-empty separator: scan from the left, cut
    at every occurrence of [sep] that does not overlap the previous
    one.  [skip] counts the characters of a matched separator still to
    be passed over, [cur] is the token being collected. *)
Fixpoint split_from (sep : string) (skip : nat) (cur : string)
    (s : string) : list string :=
  match s with
  | EmptyString => [cur]
  | String c s' =>
      match skip with
      | S k => split_from sep k cur s'
      | O =>
          if String.prefix sep s
          then cur :: split_from sep (String.length sep - 1) EmptyString s'
          else split_from sep 0 (cur ++ String c EmptyString) s'
      end
  end.

Definition split (s sep : string) : list string :=
  split_from sep 0 EmptyString s.

(** [s.rfind(ch)] for a one-character needle: the highest index holding
    [ch], or [-1]. *)
Fixpoint rfind_from (ch : ascii) (s : string) (i best : Z) : Z :=
  match s with
  | EmptyString => best
  | String c s' =>
      rfind_from ch s' (i + 1) (if Ascii.eqb c ch then i else best)
  end.

Definition rfind (s : string) (ch : ascii) : Z := rfind_from ch s 0 (-1).

(** The loop of [genericpath._splitext] that skips leading dots: does
    one of the [todo] characters from [filenameIndex] on differ from
    the extension separator? *)
Fixpoint has_non_dot (p : string) (filenameIndex todo : nat) : bool :=
  match todo with
  | O => false
  | S todo' =>
      match item filenameIndex p with
      | Some c =>
          if Ascii.eqb c "." then has_non_dot p (S filenameIndex) todo'
          else true
      | None => false
      end
  end.

(** [os.path.splitext(p)] (posixpath: separator [/], extension
    separator [.]). *)
Definition splitext (p : string) : string * string :=
  let sepIndex := rfind p "/" in
  let dotIndex := rfind p "." in
  if (sepIndex <? dotIndex)%Z &&
     has_non_dot p (Z.to_nat (sepIndex + 1))
                   (Z.to_nat (dotIndex - (sepIndex + 1)))
  then (slice_to (Z.to_nat dotIndex) p, slice_from (Z.to_nat dotIndex) p)
  else (p, EmptyString).

(** ['{}'.format(n)] for an integer. *)
Definition str_of_int (n : Z) : string :=
  NilZero.string_of_int (Z.to_int n).

(** [x in xs] for a sequence of strings. *)
Definition contains (xs : list string) (x : string) : bool :=
  existsb (String.eqb x) xs.

(** Truth value of a string, and of a string-or-[None]. *)
Definition truthy (s : string) : bool := negb (String.eqb s EmptyString).

Definition truthy_opt (o : option string) : bool :=
  match o with
  | Some s => truthy s
  | None => false
  end.

End PyStr.

Import PyStr.

(* ===================================================================== *)
(** * Errors and the exception monad *)
(* ===================================================================== *)

Inductive Scope := single | archive.

(** The variants of a validation error.  [Size] carries the limit in
    megabytes, [MimeType] the declared extension and the detected MIME
    type. *)
Inductive ErrorKind :=
| Extension
| Size (limit_mb : Z)
| MimeType (declared_ext detected_mime : string)
| ZipIntegrity
| ZipContents
| XmlWellFormedness (scope : Scope)
| XmlSchemaConformity (scope : Scope).

(** [django.core.exceptions.ValidationError]: [message] is the string the
    source passes to the constructor; [kind] labels the raise site with
    the variant it stands for. *)
Record ValidationError := mkValidationError {
  kind : ErrorKind;
  message : string
}.

(** What [ZipFile(path)] can raise that the validators handle. *)
Inductive zip_error := IOError | BadZipFile.

(** What [archive.testzip()] can raise: an [IOError] while reading, or
    an exception of another class ([zlib.error] on a damaged deflate
    stream, [RuntimeError] on an encrypted member, [NotImplementedError]
    on an unknown compression method), named by [what].  A bad member as
    such is not raised but returned. *)
Inductive testzip_error := TestIOError | TestOtherError (what : string).

(** The exceptions of the model: validation errors, the two [ZipFile]
    exceptions, [IndexError] of list indexing, [ValueError] of
    [shlex.split], and the exceptions of other classes that [testzip]
    lets through. *)
Inductive exn :=
| Invalid (e : ValidationError)
| ZipError (z : zip_error)
| IndexError
| ValueError (msg : string)
| ForeignError (what : string).

Definition M : Type -> Type := sum exn.

Definition passes (r : M unit) : Prop := r = inr tt.

Definition rejects_with (r : M unit) (e : ValidationError) : Prop :=
  r = inl (Invalid e).

(** [xs[-1]]: the last item, [IndexError] on an empty list. *)
Fixpoint last_item {A : Type} (xs : list A) : M A :=
  match xs with
  | [] => raise IndexError
  | [x] => ret x
  | _ :: xs' => last_item xs'
  end.

(** [for x in xs: body(x)], leaving the loop when [body] raises. *)
Fixpoint for_each {A : Type} (xs : list A) (body : A -> M unit) : M unit :=
  match xs with
  | [] => ret tt
  | x :: xs' => body x ;; for_each xs' body
  end.

(* ===================================================================== *)
(** * Splitting a command line *)
(* ===================================================================== *)

(** The lexer of [shlex.split(s)]: POSIX mode, [whitespace_split] on, no
    comment characters.  [read_token] is a state machine over the
    characters of [s]; its states are the blank state, the word state,
    the state inside a quote (which holds the quote character) and the
    state after the escape character (which holds the state to return
    to). *)
Module Shlex.

Inductive state :=
| Blank
| Word
| InQuote (quote : ascii)
| Escape (escapedstate : state).

(** [whitespace]: space, tab, carriage return and line feed. *)
Definition is_whitespace (c : ascii) : bool :=
  let n := nat_of_ascii c in
  (n =? 32)%nat || (n =? 9)%nat || (n =? 13)%nat || (n =? 10)%nat.

(** [quotes]: the single and the double quote. *)
Definition is_quote (c : ascii) : bool :=
  let n := nat_of_ascii c in (n =? 39)%nat || (n =? 34)%nat.

(** [escape]: the backslash. *)
Definition is_escape (c : ascii) : bool := (nat_of_ascii c =? 92)%nat.

(** [escapedquotes]: the double quote. *)
Definition is_escapedquote (c : ascii) : bool := (nat_of_ascii c =? 34)%nat.

Definition backslash : ascii := ascii_of_nat 92.

(** What [read_token] keeps between characters: the state, the token
    being collected, whether it held a quote, and, for the caller, the
    tokens already handed out. *)
Record config := mkConfig {
  state_of : state;
  token : string;
  quoted : bool;
  tokens : list string
}.

Definition initial : config := mkConfig Blank EmptyString false [].

(** At white space the token is handed out when it is not empty or was
    quoted, and a new one is begun. *)
Definition at_whitespace (cfg : config) : config :=
  if truthy (token cfg) || quoted cfg
  then mkConfig Blank EmptyString false (tokens cfg ++ [token cfg])%list
  else mkConfig Blank (token cfg) (quoted cfg) (tokens cfg).

(** One character [c] read in configuration [cfg]. *)
Definition step (c : ascii) (cfg : config) : config :=
  let tok := token cfg in
  match state_of cfg with
  | Blank =>
      if is_whitespace c then at_whitespace cfg
      else if is_escape c
      then mkConfig (Escape Word) tok (quoted cfg) (tokens cfg)
      else if is_quote c
      then mkConfig (InQuote c) tok (quoted cfg) (tokens cfg)
      else mkConfig Word (String c EmptyString) (quoted cfg) (tokens cfg)
  | Word =>
      if is_whitespace c then at_whitespace cfg
      else if is_quote c
      then mkConfig (InQuote c) tok (quoted cfg) (tokens cfg)
      else if is_escape c
      then mkConfig (Escape Word) tok (quoted cfg) (tokens cfg)
      else mkConfig Word (tok ++ String c EmptyString) (quoted cfg)
             (tokens cfg)
  | InQuote q =>
      if Ascii.eqb c q then mkConfig Word tok true (tokens cfg)
      else if is_escape c && is_escapedquote q
      then mkConfig (Escape (InQuote q)) tok true (tokens cfg)
      else mkConfig (InQuote q) (tok ++ String c EmptyString) true
             (tokens cfg)
  | Escape back =>
      let tok' :=
        match back with
        | InQuote q =>
            if negb (is_escape c) && negb (Ascii.eqb c q)
            then tok ++ String backslash EmptyString
            else tok
        | _ => tok
        end in
      mkConfig back (tok' ++ String c EmptyString) (quoted cfg) (tokens cfg)
  end.

(** All the characters of [s] read from [cfg]. *)
Fixpoint run (s : string) (cfg : config) : config :=
  match s with
  | EmptyString => cfg
  | String c s' => run s' (step c cfg)
  end.

(** The end of the input: the last token is handed out, unless a quote
    is still open or an escape character has nothing after it. *)
Definition finish (cfg : config) : exn + list string :=
  match state_of cfg with
  | Blank | Word =>
      inr (if truthy (token cfg) || quoted cfg
           then (tokens cfg ++ [token cfg])%list
           else tokens cfg)
  | InQuote _ => inl (ValueError "No closing quotation")
  | Escape _ => inl (ValueError "No escaped character")
  end.

(** [shlex.split(s)] *)
Definition split (s : string) : exn + list string :=
  finish (run s initial).

End Shlex.

(* ===================================================================== *)
(** * Data model, settings and host *)
(* ===================================================================== *)

(** The two attributes of Django's [UploadedFile] the validators read. *)
Record UploadedFile := mkUploadedFile {
  name : string;
  size : Z
}.

(** The names imported from [settings]. *)
Record Settings := mkSettings {
  MAX_UPLOAD_SIZE : Z;
  SCHEMA_PATH : string;
  XML_MIME_TYPES : list string;
  ZIP_MIME_TYPES : list string
}.

(** An opened [ZipFile]: what [testzip()] returns (the name of the first
    bad member, or [None]) or raises, and what [namelist()] returns. *)
Record ZipArchive := mkZipArchive {
  testzip : testzip_error + option string;
  namelist : list string
}.

(** Everything outside the process.  A subprocess started through the
    shell is identified by its command line, one started directly by its
    argument list.  The tools are installed: starting a subprocess does
    not fail. *)
Record Host := mkHost {
  (** [utils.get_tmp_path], applied to one or more path parts *)
  get_tmp_path : list string -> string;
  (** [Popen(cmd, shell=True, stdout=PIPE).stdout.read()] *)
  popen_stdout : string -> string;
  (** [Popen(argv, stdout=PIPE).stdout.read()] *)
  popen_argv_stdout : list string -> string;
  (** [Popen(argv).wait()] *)
  popen_wait : list string -> Z;
  (** [ZipFile(path)] *)
  ZipFile : string -> zip_error + ZipArchive;
  (** Modelled from the spec: [utils.extract_archive] is not among the
      sources; the Archive Inspector's [extract(path)] gives the
      workspace path, or none on failure. *)
  extract_archive : string -> option string;
  (** [os.listdir(path)] *)
  listdir : string -> list string
}.

(** Modelled from the spec: the [utils.file_on_disk] decorator is not
    among the sources; the Temp Materializer makes the upload available
    as a path on disk for the tools and leaves the decorated validator's
    outcome as it is. *)
Definition file_on_disk (validator : UploadedFile -> M unit)
  : UploadedFile -> M unit := validator.

(** [ZipFile(path)] inside a [try]. *)
Definition open_zip (h : Host) (p : string) : M ZipArchive :=
  match ZipFile h p with
  | inl z => raise (ZipError z)
  | inr a => ret a
  end.

(** [archive.testzip()] inside a [try]. *)
Definition run_testzip (a : ZipArchive) : M (option string) :=
  match testzip a with
  | inl TestIOError => raise (ZipError IOError)
  | inl (TestOtherError what) => raise (ForeignError what)
  | inr corrupted_file => ret corrupted_file
  end.

(* ===================================================================== *)
(** * The validators *)
(* ===================================================================== *)

Section Validators.

Variable settings : Settings.
Variable host : Host.

Definition validate_extension (uploaded_file : UploadedFile) : M unit :=
  if negb (endswith (lower (name uploaded_file)) "zip" ||
           endswith (lower (name uploaded_file)) "xml")
  then raise (Invalid (mkValidationError Extension
                "Upload must be in .zip or .xml format."))
  else ret tt.

Definition validate_size (uploaded_file : UploadedFile) : M unit :=
  if (MAX_UPLOAD_SIZE settings <? size uploaded_file)%Z
  then raise (Invalid (mkValidationError
                (Size (MAX_UPLOAD_SIZE settings / 1024 ^ 2))
                ("Upload too large. The current limit is " ++
                 str_of_int (MAX_UPLOAD_SIZE settings / 1024 ^ 2) ++
                 "MB.")))
  else ret tt.

Definition validate_mime_type : UploadedFile -> M unit :=
  file_on_disk (fun uploaded_file =>
    let subproc_stdout :=
      popen_stdout host
        ("file --mime-type " ++ get_tmp_path host [name uploaded_file]) in
    mime_type <- last_item (split (strip subproc_stdout) ": ") ;;
    let file_extension := snd (splitext (name uploaded_file)) in
    if (file_extension =? ".zip") &&
       negb (contains (ZIP_MIME_TYPES settings) mime_type)
    then raise (Invalid (mkValidationError
                  (MimeType file_extension mime_type)
                  ("File appears to be in .zip format, but it is not " ++
                   "(MIME-type: " ++ mime_type ++ ").")))
    else if (file_extension =? ".xml") &&
            negb (contains (XML_MIME_TYPES settings) mime_type)
    then raise (Invalid (mkValidationError
                  (MimeType file_extension mime_type)
                  ("File appears to be in .xml format, but it is not " ++
                   "(MIME-type: " ++ mime_type ++ ").")))
    else ret tt).

Definition validate_zip_integrity : UploadedFile -> M unit :=
  file_on_disk (fun uploaded_file =>
    if endswith (name uploaded_file) "zip" then
      corrupted_file <-
        catch
          (archive <- open_zip host (get_tmp_path host [name uploaded_file]) ;;
           run_testzip archive)
          (fun e =>
             match e with
             | ZipError IOError =>
                 raise (Invalid (mkValidationError ZipIntegrity
                          "Archive is corrupted"))
             | ZipError BadZipFile => ret None
             | _ => raise e
             end) ;;
      if truthy_opt corrupted_file
      then raise (Invalid (mkValidationError ZipIntegrity
                    "Archive contains corrupted files"))
      else ret tt
    else ret tt).

Definition validate_zip_contents : UploadedFile -> M unit :=
  file_on_disk (fun uploaded_file =>
    if endswith (name uploaded_file) "zip" then
      contents <-
        catch
          (archive <- open_zip host (get_tmp_path host [name uploaded_file]) ;;
           ret (namelist archive))
          (fun e =>
             match e with
             | ZipError _ => ret []
             | _ => raise e
             end) ;;
      if existsb (fun item => negb (endswith item "xml")) contents
      then raise (Invalid (mkValidationError ZipContents
                    "Archive contains files that are not in XML format"))
      else ret tt
    else ret tt).

(** ['xmlwf "{}"'.format(target)] *)
Definition xmlwf_command (target : string) : string :=
  "xmlwf " ++ dquote ++ target ++ dquote.

Definition validate_xml_well_formedness : UploadedFile -> M unit :=
  file_on_disk (fun uploaded_file =>
    let file_type := snd (splitext (name uploaded_file)) in
    if file_type =? ".zip" then
      match extract_archive host (get_tmp_path host [name uploaded_file]) with
      | Some folder_name =>
          if truthy folder_name then
            for_each (listdir host (get_tmp_path host [folder_name]))
              (fun file_name =>
                 if endswith file_name ".xml" &&
                    negb (file_name =? "om.xml")
                 then
                   command <- Shlex.split
                                (xmlwf_command
                                   (get_tmp_path host [folder_name; file_name])) ;;
                   let error_msg := popen_argv_stdout host command in
                   if truthy error_msg
                   then raise (Invalid (mkValidationError
                                 (XmlWellFormedness archive)
                                 ("Archive contains XML files that are not " ++
                                  "well-formed")))
                   else ret tt
                 else ret tt)
          else ret tt
      | None => ret tt
      end
    else if file_type =? ".xml" then
      command <- Shlex.split
                   (xmlwf_command (get_tmp_path host [name uploaded_file])) ;;
      let error_msg := popen_argv_stdout host command in
      if truthy error_msg
      then raise (Invalid (mkValidationError (XmlWellFormedness single)
                    "XML file is not well-formed"))
      else ret tt
    else ret tt).

(** ['xmllint --noout --schema "{0}" "{1}"'.format(SCHEMA_PATH, target)] *)
Definition xmllint_command (target : string) : string :=
  "xmllint --noout --schema " ++ dquote ++ SCHEMA_PATH settings ++ dquote ++
  " " ++ dquote ++ target ++ dquote.

Definition validate_against_schema : UploadedFile -> M unit :=
  file_on_disk (fun uploaded_file =>
    let file_type := snd (splitext (name uploaded_file)) in
    if file_type =? ".zip" then
      match extract_archive host (get_tmp_path host [name uploaded_file]) with
      | Some folder_name =>
          if truthy folder_name then
            for_each (listdir host (get_tmp_path host [folder_name]))
              (fun file_name =>
                 if endswith file_name ".xml" &&
                    negb (file_name =? "om.xml")
                 then
                   command <- Shlex.split
                                (xmllint_command
                                   (get_tmp_path host [folder_name; file_name])) ;;
                   let returncode := popen_wait host command in
                   if negb (returncode =? 0)%Z
                   then raise (Invalid (mkValidationError
                                 (XmlSchemaConformity archive)
                                 ("Archive contains XML files that do not " ++
                                  "validate against the TrendMiner XML schema")))
                   else ret tt
                 else ret tt)
          else ret tt
      | None => ret tt
      end
    else if file_type =? ".xml" then
      command <- Shlex.split
                   (xmllint_command (get_tmp_path host [name uploaded_file])) ;;
      if negb (popen_wait host command =? 0)%Z
      then raise (Invalid (mkValidationError (XmlSchemaConformity single)
                    "XML file does not validate against TrendMiner XML Schema"))
      else ret tt
    else ret tt).

End Validators.

(* ===================================================================== *)
(** * The validation pipeline *)
(* ===================================================================== *)

(** Modelled from the spec: the form that lists the validators of the
    upload field is not among the sources.  The spec's Validation
    Pipeline runs the stages "strictly in this order; each stage either
    passes (continue) or produces exactly one ValidationError (halt,
    report)", and "if every stage passes, the verdict is Accepted". *)
Inductive Stage :=
| ExtensionCheck
| SizeCheck
| MimeTypeCheck
| ZipIntegrityCheck
| ZipContentsCheck
| WellFormednessCheck
| SchemaConformityCheck.

Definition stage_order : list Stage :=
  [ExtensionCheck; SizeCheck; MimeTypeCheck; ZipIntegrityCheck;
   ZipContentsCheck; WellFormednessCheck; SchemaConformityCheck].

Inductive Verdict := Accepted | Rejected (e : ValidationError).

Section Pipeline.

Variable settings : Settings.
Variable host : Host.

Definition run_stage (s : Stage) : UploadedFile -> M unit :=
  match s with
  | ExtensionCheck => validate_extension
  | SizeCheck => validate_size settings
  | MimeTypeCheck => validate_mime_type settings host
  | ZipIntegrityCheck => validate_zip_integrity host
  | ZipContentsCheck => validate_zip_contents host
  | WellFormednessCheck => validate_xml_well_formedness host
  | SchemaConformityCheck => validate_against_schema settings host
  end.

(** Modelled from the spec: the runner.  It returns the stages it
    entered, in order, and the outcome of the last one entered. *)
Fixpoint run_stages (stages : list Stage) (candidate : UploadedFile)
  : list Stage * M unit :=
  match stages with
  | [] => ([], ret tt)
  | s :: rest =>
      match run_stage s candidate with
      | inr _ =>
          let (entered, outcome) := run_stages rest candidate in
          (s :: entered, outcome)
      | inl e => ([s], inl e)
      end
  end.

(** Modelled from the spec: the validation errors reported for a
    candidate, as the form would list them. *)
Definition reported_errors (candidate : UploadedFile)
  : list ValidationError :=
  match snd (run_stages stage_order candidate) with
  | inl (Invalid e) => [e]
  | _ => []
  end.

(** Modelled from the spec: [validate(candidate) -> Verdict]; an
    exception other than a validation error is fatal and propagates. *)
Definition validate (candidate : UploadedFile) : M Verdict :=
  match snd (run_stages stage_order candidate) with
  | inr _ => ret Accepted
  | inl (Invalid e) => ret (Rejected e)
  | inl e => raise e
  end.

End Pipeline.

(* ===================================================================== *)
(** * A sample installation *)
(* ===================================================================== *)

(** Concrete settings and hosts on which the validators can be run. *)
Module Sample.

Definition settings : Settings :=
  {| MAX_UPLOAD_SIZE := 5242880;
     SCHEMA_PATH := "/srv/trendminer/schema.xsd";
     XML_MIME_TYPES := ["application/xml"; "text/xml"];
     ZIP_MIME_TYPES := ["application/zip"] |}.

Definition tmp_path (parts : list string) : string :=
  "/tmp/" ++ String.concat "/" parts.

Definition newline : string := String (ascii_of_nat 10) EmptyString.

(** A host on which [file] answers with [sniffed], every archive opens
    as [opened], extraction gives [extracted] holding [entries], [xmlwf]
    prints [wf_output] and [xmllint] exits with [lint_code]. *)
Definition host_with (sniffed : string)
    (opened : zip_error + ZipArchive) (extracted : option string)
    (entries : list string) (wf_output : string) (lint_code : Z) : Host :=
  {| get_tmp_path := tmp_path;
     popen_stdout := fun _ => sniffed;
     popen_argv_stdout := fun _ => wf_output;
     popen_wait := fun _ => lint_code;
     ZipFile := fun _ => opened;
     extract_archive := fun _ => extracted;
     listdir := fun _ => entries |}.

(** A host on which nothing is wrong with a zip of XML files. *)
Definition healthy_zip_host (entries : list string) : Host :=
  host_with ("/tmp/data.zip: application/zip" ++ newline)
    (inr {| testzip := inr None; namelist := entries |})
    (Some "data") entries "" 0.

End Sample.

(* ===================================================================== *)
(** * Vocabulary of the properties *)
(* ===================================================================== *)

(** [t] holds no occurrence of the separator [sep]. *)
Definition free_of (sep t : string) : Prop :=
  forall a b, t <> a ++ sep ++ b.

(** The path the upload is materialised at. *)
Definition upload_path (h : Host) (f : UploadedFile) : string :=
  get_tmp_path h [name f].

(** The extension the validators read off the name,
    [path.splitext(uploaded_file.name)[1]]. *)
Definition declared_extension (f : UploadedFile) : string :=
  snd (splitext (name f)).

(** The command line of the MIME sniffer and the MIME type the validator
    reads from its output. *)
Definition sniff_command (h : Host) (f : UploadedFile) : string :=
  "file --mime-type " ++ upload_path h f.

Definition detected_mime_type (h : Host) (f : UploadedFile) : M string :=
  last_item (split (strip (popen_stdout h (sniff_command h f))) ": ").

(** A name that ends in [ext] only after lower-casing: an upper-case or
    mixed-case variant of the extension. *)
Definition case_variant (ext : string) (nm : string) : Prop :=
  endswith (lower nm) ext = true /\ endswith nm ext = false.

(** The errors the validators raise. *)
Definition extension_error : ValidationError :=
  mkValidationError Extension "Upload must be in .zip or .xml format.".

Definition size_error (settings : Settings) : ValidationError :=
  mkValidationError (Size (MAX_UPLOAD_SIZE settings / 1024 ^ 2))
    ("Upload too large. The current limit is " ++
     str_of_int (MAX_UPLOAD_SIZE settings / 1024 ^ 2) ++ "MB.").

Definition mime_type_error (ext mime : string) : ValidationError :=
  mkValidationError (MimeType ext mime)
    ("File appears to be in " ++ ext ++ " format, but it is not (MIME-type: " ++
     mime ++ ").").

Definition zip_unreadable_error : ValidationError :=
  mkValidationError ZipIntegrity "Archive is corrupted".

Definition zip_corrupted_files_error : ValidationError :=
  mkValidationError ZipIntegrity "Archive contains corrupted files".

Definition zip_contents_error : ValidationError :=
  mkValidationError ZipContents
    "Archive contains files that are not in XML format".

Definition files_wellformedness_error : ValidationError :=
  mkValidationError (XmlWellFormedness archive)
    "Archive contains XML files that are not well-formed".

Definition files_schema_conformity_error : ValidationError :=
  mkValidationError (XmlSchemaConformity archive)
    "Archive contains XML files that do not validate against the TrendMiner XML schema".

(** The entries of an extracted archive the two XML stages look at. *)
Definition checked_entry (file_name : string) : bool :=
  endswith file_name ".xml" && negb (file_name =? "om.xml").

(** The bodies of the two loops over an extracted archive. *)
Definition check_member_well_formed (host : Host)
    (folder_name file_name : string) : M unit :=
  if endswith file_name ".xml" && negb (file_name =? "om.xml")
  then
    command <- Shlex.split
                 (xmlwf_command (get_tmp_path host [folder_name; file_name])) ;;
    if truthy (popen_argv_stdout host command)
    then raise (Invalid files_wellformedness_error)
    else ret tt
  else ret tt.

Definition check_member_against_schema (settings : Settings) (host : Host)
    (folder_name file_name : string) : M unit :=
  if endswith file_name ".xml" && negb (file_name =? "om.xml")
  then
    command <- Shlex.split
                 (xmllint_command settings
                    (get_tmp_path host [folder_name; file_name])) ;;
    if negb (popen_wait host command =? 0)%Z
    then raise (Invalid files_schema_conformity_error)
    else ret tt
  else ret tt.

Definition xml_wellformedness_error : ValidationError :=
  mkValidationError (XmlWellFormedness single) "XML file is not well-formed".

Definition xml_schema_conformity_error : ValidationError :=
  mkValidationError (XmlSchemaConformity single)
    "XML file does not validate against TrendMiner XML Schema".

(** [ch in s] for a character. *)
Fixpoint occurs (ch : ascii) (s : string) : bool :=
  match s with
  | EmptyString => false
  | String c s' => Ascii.eqb c ch || occurs ch s'
  end.

(** A file name as browsers send it: no directory part, and a first
    character that is not a dot. *)
Definition plain_stem (stem : string) : Prop :=
  occurs "/" stem = false /\
  exists c rest, stem = String c rest /\ c <> "."%char.

(** The line feed that ends a line of tool output. *)
Definition linefeed : string := String (ascii_of_nat 10) EmptyString.

(** A path that can stand between double quotes on a command line as it
    is: it holds no double quote and no backslash. *)
Definition shell_safe (p : string) : bool :=
  negb (occurs (ascii_of_nat 34) p) && negb (occurs Shlex.backslash p).

(** The argument lists the two XML tools are started with when the
    command line splits as written. *)
Definition xmlwf_argv (target : string) : list string :=
  ["xmlwf"; target].

Definition xmllint_argv (settings : Settings) (target : string)
  : list string :=
  ["xmllint"; "--noout"; "--schema"; SCHEMA_PATH settings; target].

(** What the two loops do with an entry whose command line splits as
    written. *)
Definition member_well_formed (host : Host) (folder_name file_name : string)
  : M unit :=
  if checked_entry file_name
  then
    if truthy (popen_argv_stdout host
                 (xmlwf_argv (get_tmp_path host [folder_name; file_name])))
    then raise (Invalid files_wellformedness_error)
    else ret tt
  else ret tt.

Definition member_against_schema (settings : Settings) (host : Host)
    (folder_name file_name : string) : M unit :=
  if checked_entry file_name
  then
    if negb (popen_wait host
               (xmllint_argv settings
                  (get_tmp_path host [folder_name; file_name])) =? 0)%Z
    then raise (Invalid files_schema_conformity_error)
    else ret tt
  else ret tt.

(** Every entry of the extracted archive that the XML stages look at has
    a [shell_safe] path. *)
Definition entries_shell_safe (host : Host) (folder : string) : Prop :=
  forall n,
    In n (listdir host (get_tmp_path host [folder])) ->
    checked_entry n = true ->
    shell_safe (get_tmp_path host [folder; n]) = true.

Arguments xmlwf_command : simpl never.
Arguments xmllint_command : simpl never.

(** Take apart the hypotheses of a case and close it when two outcomes
    that cannot be equal are equated. *)
Ltac break_cases :=
  repeat match goal with
         | H : exists _, _ |- _ => destruct H
         | H : _ /\ _ |- _ => destruct H
         | H : _ \/ _ |- _ => destruct H
         | H : inl _ = inl _ |- _ => injection H as H; subst
         | H : inr _ = inr _ |- _ => injection H as H; subst
         | H : Invalid _ = Invalid _ |- _ => injection H as H; subst
         end;
  try discriminate; try reflexivity.

(* ===================================================================== *)
(** * Facts about the string operations *)
(* ===================================================================== *)

Module PyStrFacts.

Lemma append_nil_r (s : string) : s ++ "" = s.
Proof. induction s as [|c s IH]; simpl; [reflexivity | now rewrite IH]. Qed.

Lemma append_assoc (a b c : string) : (a ++ b) ++ c = a ++ (b ++ c).
Proof. induction a as [|x a IH]; simpl; [reflexivity | now rewrite IH]. Qed.

Lemma length_append (a b : string) :
  String.length (a ++ b) = String.length a + String.length b.
Proof. induction a as [|x a IH]; simpl; [reflexivity | now rewrite IH]. Qed.

Lemma slice_to_from (n : nat) (s : string) :
  slice_to n s ++ slice_from n s = s.
Proof.
  revert s; induction n as [|n IH]; intros [|c s]; simpl; try reflexivity.
  now rewrite IH.
Qed.

Lemma slice_from_append (a b : string) :
  slice_from (String.length a) (a ++ b) = b.
Proof. induction a as [|x a IH]; simpl; [now destruct b | exact IH]. Qed.

(** Two decompositions of one string with tails of equal length
    coincide. *)
Lemma append_inv_tail (a b x y : string) :
  a ++ x = b ++ y -> String.length x = String.length y ->
  a = b /\ x = y.
Proof.
  revert b; induction a as [|c a IH]; intros [|d b] E L; simpl in E.
  - auto.
  - exfalso. subst x. simpl in L. rewrite length_append in L. lia.
  - exfalso. subst y. simpl in L. rewrite length_append in L. lia.
  - injection E as -> E. destruct (IH b E L) as [-> ->]. auto.
Qed.

(** [endswith] is the suffix relation. *)
Lemma endswith_iff (s suffix : string) :
  endswith s suffix = true <-> exists pre, s = pre ++ suffix.
Proof.
  unfold endswith. rewrite andb_true_iff, Nat.leb_le, String.eqb_eq. split.
  - intros [_ E].
    exists (slice_to (String.length s - String.length suffix) s).
    pose proof (slice_to_from (String.length s - String.length suffix) s) as H.
    rewrite E in H. symmetry. exact H.
  - intros [pre ->]. rewrite length_append. split; [lia|].
    replace (String.length pre + String.length suffix - String.length suffix)
      with (String.length pre) by lia.
    apply slice_from_append.
Qed.

(** A longer suffix gives the shorter one. *)
Lemma endswith_shorter (s a b : string) :
  endswith s (a ++ b) = true -> endswith s b = true.
Proof.
  rewrite !endswith_iff. intros [pre ->]. exists (pre ++ a).
  now rewrite append_assoc.
Qed.

(** A string cannot end in two different suffixes of one length. *)
Lemma endswith_same_length (s a b : string) :
  String.length a = String.length b ->
  endswith s a = true -> endswith s b = true -> a = b.
Proof.
  intros L Ha Hb. apply endswith_iff in Ha as [p ->].
  apply endswith_iff in Hb as [q E].
  now destruct (append_inv_tail _ _ _ _ E L).
Qed.

Lemma lower_append (a b : string) : lower (a ++ b) = lower a ++ lower b.
Proof. induction a as [|x a IH]; simpl; [reflexivity | now rewrite IH]. Qed.

Lemma lower_length (s : string) : String.length (lower s) = String.length s.
Proof. induction s as [|c s IH]; simpl; [reflexivity | now rewrite IH]. Qed.

(** Lower-casing works character by character, so a decomposition of
    [lower s] comes from one of [s]. *)
Lemma lower_split (s a b : string) :
  lower s = a ++ b ->
  exists a' b', s = a' ++ b' /\ lower a' = a /\ lower b' = b.
Proof.
  revert s; induction a as [|x a IH]; intros s E; simpl in E.
  - exists "", s. auto.
  - destruct s as [|c s]; simpl in E; [discriminate|].
    injection E as Ex E. destruct (IH s E) as (a' & b' & -> & <- & <-).
    exists (String c a'), b'. simpl. now rewrite Ex.
Qed.

(** The dot is lower case only of itself. *)
Lemma lower_ascii_dot (c : ascii) :
  lower_ascii c = "."%char -> c = "."%char.
Proof.
  destruct c as [[] [] [] [] [] [] [] []]; vm_compute; intro H;
    first [reflexivity | discriminate H].
Qed.

(** If the lower-cased name ends in [.] followed by [ext], and the name
    itself ends in [ext], then the name ends in [.] followed by [ext]:
    the dot has no other case. *)
Lemma endswith_dot_of_lower (s ext : string) :
  endswith (lower s) ("." ++ ext) = true ->
  endswith s ext = true ->
  endswith s ("." ++ ext) = true.
Proof.
  intros Hl Hs. apply endswith_iff in Hs as [pre ->].
  apply endswith_iff in Hl as [q E].
  rewrite lower_append in E.
  change (q ++ "." ++ ext) with (q ++ ("." ++ ext)) in E.
  rewrite <- (append_assoc q "." ext) in E.
  assert (L : String.length (lower ext) = String.length ext)
    by apply lower_length.
  destruct (append_inv_tail _ _ _ _ E L) as [Epre _].
  destruct (lower_split _ _ _ Epre) as (a' & b' & -> & _ & Hb).
  destruct b' as [|c [|c' b'']]; simpl in Hb; try discriminate.
  injection Hb as Hc. apply lower_ascii_dot in Hc. subst c.
  apply endswith_iff. exists a'. now rewrite append_assoc.
Qed.

(** The extension [splitext] finds is a suffix of the path. *)
Lemma splitext_ext_suffix (p : string) :
  exists root, p = root ++ snd (splitext p).
Proof.
  unfold splitext.
  destruct (_ && _); simpl.
  - eexists. symmetry. apply slice_to_from.
  - exists p. now rewrite append_nil_r.
Qed.

Lemma splitext_ext_endswith (p ext : string) :
  snd (splitext p) = ext -> endswith p ext = true.
Proof.
  intros <-. apply endswith_iff. apply splitext_ext_suffix.
Qed.

Lemma prefix_iff (a s : string) :
  String.prefix a s = true <-> exists rest, s = a ++ rest.
Proof.
  revert s; induction a as [|x a IH]; intros s.
  - destruct s; simpl; split; eauto.
  - destruct s as [|c s]; simpl.
    + split; [discriminate | intros [rest E]; discriminate E].
    + destruct (ascii_dec x c) as [->|N].
      * rewrite IH. split; intros [rest E]; exists rest.
        -- now rewrite E.
        -- now injection E.
      * split; [discriminate | intros [rest E]].
        injection E as E1 _. congruence.
Qed.

(** [split] never produces an empty list. *)
Lemma split_from_nonempty (sep : string) (s : string) :
  forall skip cur, split_from sep skip cur s <> [].
Proof.
  induction s as [|c s IH]; intros skip cur; cbn [split_from];
    [discriminate|].
  destruct skip; [|apply IH].
  destruct (String.prefix sep (String c s)); [discriminate | apply IH].
Qed.

Lemma split_nonempty (s sep : string) : split s sep <> [].
Proof. apply split_from_nonempty. Qed.

Lemma free_of_tail (sep : string) (c : ascii) (t : string) :
  free_of sep (String c t) -> free_of sep t.
Proof. intros F a b ->. exact (F (String c a) b eq_refl). Qed.

(** Without a separator the string is its own single token. *)
Lemma split_from_free (sep t : string) :
  free_of sep t ->
  forall cur, split_from sep 0 cur t = [cur ++ t].
Proof.
  induction t as [|c t IH]; intros F cur; cbn [split_from].
  - now rewrite append_nil_r.
  - destruct (String.prefix sep (String c t)) eqn:P.
    + apply prefix_iff in P as [rest E]. exfalso.
      apply (F "" rest). exact E.
    + rewrite (IH (free_of_tail _ _ _ F)), append_assoc. reflexivity.
Qed.

End PyStrFacts.

Import PyStrFacts.

(* ===================================================================== *)
(** * Facts about the exception monad *)
(* ===================================================================== *)

Lemma last_item_cons {A : Type} (x : A) (xs : list A) :
  xs <> [] -> last_item (x :: xs) = last_item xs.
Proof. destruct xs; [congruence | reflexivity]. Qed.

(** [xs[-1]] raises only on the empty list. *)
Lemma last_item_nonempty {A : Type} (xs : list A) :
  xs <> [] -> exists x, last_item xs = inr x /\ In x xs.
Proof.
  induction xs as [|x xs IH]; intros N; [congruence|].
  destruct xs as [|y xs].
  - exists x. simpl. auto.
  - destruct IH as (z & E & I); [discriminate|].
    exists z. split; [exact E | now right].
Qed.

(** The token [split(': ')[-1]] selects is what follows the last
    separator. *)
Lemma last_item_split_from (t : string) :
  free_of ": " t ->
  forall pre cur skip,
    skip = 0 \/ (skip = 1 /\ pre <> "") ->
    last_item (split_from ": " skip cur (pre ++ ": " ++ t)) = inr t.
Proof.
  intros F. remember (": " ++ t) as tail eqn:Etail.
  induction pre as [|c pre IH]; intros cur skip Hs.
  - destruct Hs as [->|[_ N]]; [|congruence].
    cbn [append]. subst tail. cbn [append split_from].
    destruct (String.prefix ": " (String ":" (String " " t))) eqn:P.
    + cbn [String.length Nat.sub split_from].
      rewrite (split_from_free _ _ F). reflexivity.
    + exfalso. assert (P' : String.prefix ": " (": " ++ t) = true)
        by (apply prefix_iff; eauto).
      cbn [append] in P'. congruence.
  - cbn [append split_from]. destruct Hs as [->|[-> _]].
    + destruct (String.prefix ": " (String c (pre ++ tail))) eqn:P.
      * apply prefix_iff in P as [rest E]. cbn [append] in E.
        injection E as -> E.
        assert (N : pre <> "").
        { intros ->. subst tail. cbn [append] in E. discriminate E. }
        cbn [String.length Nat.sub].
        rewrite last_item_cons by apply split_from_nonempty.
        apply IH. right. auto.
      * apply IH. left. reflexivity.
    + apply IH. left. reflexivity.
Qed.

Lemma for_each_passes_iff {A : Type} (xs : list A) (body : A -> M unit) :
  for_each xs body = inr tt <-> forall x, In x xs -> body x = inr tt.
Proof.
  induction xs as [|x xs IH]; simpl.
  - split; [intros _ y [] | reflexivity].
  - destruct (body x) as [e|[]] eqn:B.
    + split; [discriminate|]. intros H.
      specialize (H x (or_introl eq_refl)). congruence.
    + rewrite IH. split.
      * intros H y [<-|I]; auto.
      * intros H y I. apply H. now right.
Qed.

(** A loop whose body can only raise [e] raises [e] exactly when some
    iteration does, and otherwise runs to its end. *)
Lemma for_each_raises_iff {A : Type} (xs : list A) (body : A -> M unit)
    (e : exn) :
  (forall x, body x = inr tt \/ body x = inl e) ->
  (for_each xs body = inl e <-> exists x, In x xs /\ body x = inl e) /\
  (for_each xs body = inr tt \/ for_each xs body = inl e).
Proof.
  intros Hb. induction xs as [|x xs [IH1 IH2]]; simpl.
  - split; [|now left]. split; [discriminate | intros (y & [] & _)].
  - destruct (Hb x) as [B|B]; rewrite B.
    + split; [|exact IH2]. rewrite IH1. split.
      * intros (y & I & E). exists y. auto.
      * intros (y & [<-|I] & E); [congruence | eauto].
    + split; [|now right]. split; [|reflexivity]. intros _. exists x. auto.
Qed.

(* ===================================================================== *)
(** * The extension stage *)
(* ===================================================================== *)

(** The extension stage raises exactly when the lower-cased name ends
    neither in [zip] nor in [xml], and then it raises the extension
    error. *)
Lemma validate_extension_outcome (f : UploadedFile) :
  (endswith (lower (name f)) "zip" || endswith (lower (name f)) "xml" = true ->
   passes (validate_extension f)) /\
  (endswith (lower (name f)) "zip" || endswith (lower (name f)) "xml" = false ->
   rejects_with (validate_extension f) extension_error).
Proof.
  unfold validate_extension, passes, rejects_with.
  split; intros ->; reflexivity.
Qed.

(** Every name that ends, in any case, in [.zip] or [.xml] passes the
    extension stage. *)
Lemma validate_extension_passes_dotted (f : UploadedFile) :
  endswith (lower (name f)) ".zip" = true \/
  endswith (lower (name f)) ".xml" = true ->
  passes (validate_extension f).
Proof.
  intros H. apply validate_extension_outcome. apply orb_true_iff.
  destruct H as [H|H]; [left|right];
    exact (endswith_shorter _ "." _ H).
Qed.

(** C1.  Every name that does not end, case-insensitively, in [.zip] or
    [.xml] should be rejected with the extension error.  The validator
    tests the suffixes [zip] and [xml] without the dot: the upload named
    [datazip] ends in neither [.zip] nor [.xml], and the extension stage
    lets it pass. *)
Theorem validate_extension_misses_the_dot :
  let candidate := mkUploadedFile "datazip" 1024 in
  endswith (lower (name candidate)) ".zip" = false /\
  endswith (lower (name candidate)) ".xml" = false /\
  validate_extension candidate = inr tt /\
  validate_extension candidate <> inl (Invalid extension_error).
Proof. repeat split. discriminate. Qed.

(** What becomes of such an upload when it is no archive at all: no later
    stage objects, and it is accepted. *)
Example dotless_name_is_accepted :
  let host := Sample.host_with
                ("/tmp/datazip: text/plain" ++ Sample.newline)
                (inl BadZipFile) None [] "" 0 in
  validate Sample.settings host (mkUploadedFile "datazip" 1024) = inr Accepted.
Proof. reflexivity. Qed.

(* ===================================================================== *)
(** * The size stage *)
(* ===================================================================== *)

(** The size stage as a function of the size. *)
Lemma validate_size_cases (settings : Settings) (f : UploadedFile) :
  validate_size settings f =
    if (MAX_UPLOAD_SIZE settings <? size f)%Z
    then inl (Invalid (size_error settings))
    else inr tt.
Proof. reflexivity. Qed.

Lemma validate_size_passes (settings : Settings) (f : UploadedFile) :
  (size f <= MAX_UPLOAD_SIZE settings)%Z -> passes (validate_size settings f).
Proof.
  intros H. unfold passes. rewrite validate_size_cases.
  apply Z.ltb_ge in H. now rewrite H.
Qed.

(** C9.  A candidate whose size strictly exceeds [MAX_UPLOAD_SIZE] is
    rejected by the size stage with the size error, whatever its name and
    whatever the host holds; the error carries the limit in megabytes,
    [MAX_UPLOAD_SIZE] divided by [1024] squared, and its message prints
    that number.  A candidate of size [MAX_UPLOAD_SIZE] or less passes. *)
Theorem validate_size_outcome (settings : Settings) (f : UploadedFile) :
  ((MAX_UPLOAD_SIZE settings < size f)%Z ->
     rejects_with (validate_size settings f) (size_error settings) /\
     kind (size_error settings) =
       Size (MAX_UPLOAD_SIZE settings / (1024 * 1024)) /\
     message (size_error settings) =
       "Upload too large. The current limit is " ++
       str_of_int (MAX_UPLOAD_SIZE settings / (1024 * 1024)) ++ "MB.") /\
  (size f = MAX_UPLOAD_SIZE settings -> passes (validate_size settings f)) /\
  ((size f <= MAX_UPLOAD_SIZE settings)%Z -> passes (validate_size settings f)).
Proof.
  split; [|split].
  - intros Hbig. split; [|split; reflexivity].
    unfold rejects_with. rewrite validate_size_cases.
    apply Z.ltb_lt in Hbig. now rewrite Hbig.
  - intros Heq. apply validate_size_passes. lia.
  - apply validate_size_passes.
Qed.

Lemma validate_size_outcome_witness :
  rejects_with
    (validate_size Sample.settings (mkUploadedFile "data.zip" 5242881))
    (mkValidationError (Size 5) "Upload too large. The current limit is 5MB.") /\
  passes (validate_size Sample.settings (mkUploadedFile "data.zip" 5242880)).
Proof.
  pose proof (validate_size_outcome Sample.settings
                (mkUploadedFile "data.zip" 5242881)) as [Hbig _].
  pose proof (validate_size_outcome Sample.settings
                (mkUploadedFile "data.zip" 5242880)) as [_ [Heq _]].
  split.
  - apply Hbig. simpl. lia.
  - apply Heq. reflexivity.
Defined.

(* ===================================================================== *)
(** * The MIME-type stage *)
(* ===================================================================== *)

(** Reading the MIME type off the sniffer's output always succeeds. *)
Lemma detected_mime_type_total (host : Host) (f : UploadedFile) :
  exists mime,
    detected_mime_type host f = inr mime /\
    In mime (split (strip (popen_stdout host (sniff_command host f))) ": ").
Proof. apply last_item_nonempty, split_nonempty. Qed.

(** The stage as a function of the detected MIME type. *)
Lemma validate_mime_type_outcome (settings : Settings) (host : Host)
    (f : UploadedFile) (mime : string) :
  detected_mime_type host f = inr mime ->
  validate_mime_type settings host f =
    if (declared_extension f =? ".zip") &&
       negb (contains (ZIP_MIME_TYPES settings) mime)
    then inl (Invalid (mime_type_error ".zip" mime))
    else if (declared_extension f =? ".xml") &&
            negb (contains (XML_MIME_TYPES settings) mime)
    then inl (Invalid (mime_type_error ".xml" mime))
    else inr tt.
Proof.
  unfold detected_mime_type, sniff_command, upload_path, declared_extension.
  intros D. unfold validate_mime_type, file_on_disk. rewrite D. cbn [bind Monad_either].
  destruct (snd (splitext (name f)) =? ".zip") eqn:Z.
  - apply String.eqb_eq in Z. rewrite Z. cbn [andb].
    destruct (contains (ZIP_MIME_TYPES settings) mime); reflexivity.
  - cbn [andb]. destruct (snd (splitext (name f)) =? ".xml") eqn:X.
    + apply String.eqb_eq in X. rewrite X. cbn [andb].
      destruct (contains (XML_MIME_TYPES settings) mime); reflexivity.
    + reflexivity.
Qed.

(** C7.  With [mime] the MIME type read from the sniffer: a candidate of
    extension [.zip] whose [mime] is outside [ZIP_MIME_TYPES], and a
    candidate of extension [.xml] whose [mime] is outside
    [XML_MIME_TYPES], is rejected with the MIME-type error, which carries
    the extension and [mime], in its kind and in its message; when
    [mime] is in the allow-set of the extension the stage passes. *)
Theorem validate_mime_type_by_extension (settings : Settings) (host : Host)
    (f : UploadedFile) (mime : string) :
  detected_mime_type host f = inr mime ->
  (declared_extension f = ".zip" ->
     (contains (ZIP_MIME_TYPES settings) mime = false ->
        rejects_with (validate_mime_type settings host f)
          (mime_type_error ".zip" mime)) /\
     (contains (ZIP_MIME_TYPES settings) mime = true ->
        passes (validate_mime_type settings host f))) /\
  (declared_extension f = ".xml" ->
     (contains (XML_MIME_TYPES settings) mime = false ->
        rejects_with (validate_mime_type settings host f)
          (mime_type_error ".xml" mime)) /\
     (contains (XML_MIME_TYPES settings) mime = true ->
        passes (validate_mime_type settings host f))) /\
  (forall ext,
     kind (mime_type_error ext mime) = MimeType ext mime /\
     message (mime_type_error ext mime) =
       "File appears to be in " ++ ext ++
       " format, but it is not (MIME-type: " ++ mime ++ ").").
Proof.
  intros D. unfold passes, rejects_with.
  rewrite (validate_mime_type_outcome settings host f mime D).
  split; [|split].
  - intros ->. split; intros ->; reflexivity.
  - intros ->. split; intros ->; reflexivity.
  - intros ext. split; reflexivity.
Qed.

Lemma validate_mime_type_by_extension_witness :
  let host := Sample.host_with
                ("/tmp/data.zip: application/octet-stream" ++ Sample.newline)
                (inl BadZipFile) None [] "" 0 in
  rejects_with
    (validate_mime_type Sample.settings host (mkUploadedFile "data.zip" 1024))
    (mkValidationError (MimeType ".zip" "application/octet-stream")
       "File appears to be in .zip format, but it is not (MIME-type: application/octet-stream).").
Proof.
  intros host.
  apply (validate_mime_type_by_extension Sample.settings host
           (mkUploadedFile "data.zip" 1024) "application/octet-stream");
    reflexivity.
Defined.

(** C10.  Whatever string the MIME sniffer prints, the stage raises no
    [IndexError]: the split always yields a token, the last one is taken
    as the MIME type, and the stage either passes or rejects with the
    MIME-type error.  The MIME type is what follows the last [": "] of
    the stripped output, or the whole stripped output when there is
    none; blank output gives the empty MIME type.  A MIME type outside
    the allow-set of a [.zip] or [.xml] candidate, the empty one
    included, gives the MIME-type rejection. *)
Theorem validate_mime_type_never_crashes (settings : Settings) (host : Host)
    (f : UploadedFile) (out : string) :
  popen_stdout host (sniff_command host f) = out ->
  (exists mime,
     detected_mime_type host f = inr mime /\
     last_item (split (strip out) ": ") = inr mime /\
     (passes (validate_mime_type settings host f) \/
      rejects_with (validate_mime_type settings host f)
        (mime_type_error (declared_extension f) mime))) /\
  (forall pre t,
     strip out = pre ++ ": " ++ t -> free_of ": " t ->
     detected_mime_type host f = inr t) /\
  (free_of ": " (strip out) -> detected_mime_type host f = inr (strip out)) /\
  (strip out = "" -> detected_mime_type host f = inr "") /\
  (forall mime,
     detected_mime_type host f = inr mime ->
     (declared_extension f = ".zip" /\
      contains (ZIP_MIME_TYPES settings) mime = false) \/
     (declared_extension f = ".xml" /\
      contains (XML_MIME_TYPES settings) mime = false) ->
     rejects_with (validate_mime_type settings host f)
       (mime_type_error (declared_extension f) mime)).
Proof.
  intros O. split; [|split; [|split; [|split]]].
  - destruct (detected_mime_type_total host f) as (mime & D & _).
    exists mime. split; [exact D|]. split.
    + unfold detected_mime_type in D. now rewrite O in D.
    + unfold passes, rejects_with.
      rewrite (validate_mime_type_outcome settings host f mime D).
      destruct (declared_extension f =? ".zip") eqn:Z.
      * apply String.eqb_eq in Z. rewrite Z. cbn [andb].
        destruct (contains (ZIP_MIME_TYPES settings) mime); auto.
      * cbn [andb]. destruct (declared_extension f =? ".xml") eqn:X;
          [|auto].
        apply String.eqb_eq in X. rewrite X. cbn [andb].
        destruct (contains (XML_MIME_TYPES settings) mime); auto.
  - intros pre t E F. unfold detected_mime_type, split. rewrite O, E.
    apply (last_item_split_from t F pre "" 0). now left.
  - intros F. unfold detected_mime_type, split. rewrite O.
    now rewrite (split_from_free _ _ F).
  - intros E. unfold detected_mime_type. rewrite O, E. reflexivity.
  - intros mime D H. unfold rejects_with.
    rewrite (validate_mime_type_outcome settings host f mime D).
    destruct H as [[-> ->]|[-> ->]]; reflexivity.
Qed.

Lemma validate_mime_type_never_crashes_witness :
  let host := Sample.host_with "" (inl BadZipFile) None [] "" 0 in
  rejects_with
    (validate_mime_type Sample.settings host (mkUploadedFile "data.xml" 1024))
    (mime_type_error ".xml" "").
Proof.
  intros host.
  destruct (validate_mime_type_never_crashes Sample.settings host
              (mkUploadedFile "data.xml" 1024) "" eq_refl)
    as (_ & _ & _ & Hblank & Hreject).
  apply (Hreject "" (Hblank eq_refl)). right. split; reflexivity.
Defined.

(* ===================================================================== *)
(** * The zip stages *)
(* ===================================================================== *)

Lemma truthy_iff (s : string) : truthy s = true <-> s <> "".
Proof.
  unfold truthy. rewrite negb_true_iff. apply String.eqb_neq.
Qed.

Lemma truthy_opt_iff (o : option string) :
  truthy_opt o = true <-> exists member, o = Some member /\ member <> "".
Proof.
  destruct o as [m|]; simpl.
  - rewrite truthy_iff. split.
    + intros N. exists m. auto.
    + intros (m' & E & N). now injection E as ->.
  - split; [discriminate | intros (m & E & _); discriminate E].
Qed.

(** The integrity stage as a function of what [ZipFile] and [testzip]
    find. *)
Lemma validate_zip_integrity_outcome (host : Host) (f : UploadedFile) :
  validate_zip_integrity host f =
    if endswith (name f) "zip" then
      match ZipFile host (upload_path host f) with
      | inl IOError => inl (Invalid zip_unreadable_error)
      | inl BadZipFile => inr tt
      | inr a =>
          match testzip a with
          | inl TestIOError => inl (Invalid zip_unreadable_error)
          | inl (TestOtherError what) => inl (ForeignError what)
          | inr corrupted_file =>
              if truthy_opt corrupted_file
              then inl (Invalid zip_corrupted_files_error)
              else inr tt
          end
      end
    else inr tt.
Proof.
  unfold validate_zip_integrity, file_on_disk, open_zip, run_testzip,
    upload_path.
  destruct (endswith (name f) "zip"); [|reflexivity].
  destruct (ZipFile host (get_tmp_path host [name f])) as [[]|a];
    try reflexivity.
  cbn. destruct (testzip a) as [[|what]|r]; reflexivity.
Qed.

(** The contents stage as a function of what [ZipFile] finds. *)
Lemma validate_zip_contents_outcome (host : Host) (f : UploadedFile) :
  validate_zip_contents host f =
    if endswith (name f) "zip" then
      match ZipFile host (upload_path host f) with
      | inl _ => inr tt
      | inr a =>
          if existsb (fun item => negb (endswith item "xml")) (namelist a)
          then inl (Invalid zip_contents_error)
          else inr tt
      end
    else inr tt.
Proof.
  unfold validate_zip_contents, file_on_disk, open_zip, upload_path.
  destruct (endswith (name f) "zip"); [|reflexivity].
  destruct (ZipFile host (get_tmp_path host [name f])) as [[]|a];
    reflexivity.
Qed.

Lemma endswith_zip_of_dotted (nm : string) :
  endswith nm ".zip" = true -> endswith nm "zip" = true.
Proof. exact (endswith_shorter nm "." "zip"). Qed.

(** C4, as the source has it.  For a candidate whose name ends in
    [.zip], the integrity stage rejects with a zip-integrity error when
    opening the archive raises an I/O error, when the integrity test
    raises an I/O error, and when the test returns the name, not empty,
    of a corrupted member.  It passes when opening raises [BadZipFile]
    and when the test finds no corrupted member.  Whenever it rejects,
    the error is a zip-integrity error and an I/O error was raised by the
    opening or by the test, or the test returned a member.  A candidate
    whose name does not end in [zip] is not inspected and passes. *)
Theorem validate_zip_integrity_rejects_when (host : Host) (f : UploadedFile) :
  let opened := ZipFile host (upload_path host f) in
  let outcome := validate_zip_integrity host f in
  (endswith (name f) ".zip" = true ->
     (opened = inl IOError -> rejects_with outcome zip_unreadable_error) /\
     (forall a,
        opened = inr a -> testzip a = inl TestIOError ->
        rejects_with outcome zip_unreadable_error) /\
     (forall a member,
        opened = inr a -> testzip a = inr (Some member) -> member <> "" ->
        rejects_with outcome zip_corrupted_files_error) /\
     (opened = inl BadZipFile -> passes outcome) /\
     (forall a, opened = inr a -> testzip a = inr None -> passes outcome) /\
     (forall e,
        rejects_with outcome e ->
        kind e = ZipIntegrity /\
        (opened = inl IOError \/
         exists a,
           opened = inr a /\
           (testzip a = inl TestIOError \/
            exists member, testzip a = inr (Some member))))) /\
  (endswith (name f) "zip" = false -> passes outcome).
Proof.
  intros opened outcome. subst opened outcome.
  unfold passes, rejects_with. rewrite validate_zip_integrity_outcome.
  split; [|intros ->; reflexivity].
  intros Hz. rewrite (endswith_zip_of_dotted _ Hz).
  destruct (ZipFile host (upload_path host f)) as [[]|a].
  - repeat split; intros; break_cases; eauto.
  - repeat split; intros; break_cases; eauto.
  - destruct (testzip a) as [[|what]|[member|]] eqn:T.
    + repeat split; intros; break_cases; eauto 8; congruence.
    + repeat split; intros; break_cases; eauto 8; congruence.
    + cbn [truthy_opt]. destruct (truthy member) eqn:Tm.
      * repeat split; intros; break_cases; eauto 8; congruence.
      * assert (Em : member = "").
        { apply negb_false_iff in Tm. now apply String.eqb_eq in Tm. }
        repeat split; intros; break_cases; eauto 8; congruence.
    + repeat split; intros; break_cases; eauto 8; congruence.
Qed.

Lemma validate_zip_integrity_rejects_when_witness :
  let unreadable := {| testzip := inl TestIOError; namelist := ["a.xml"] |} in
  let host := Sample.host_with "" (inr unreadable) None [] "" 0 in
  rejects_with (validate_zip_integrity host (mkUploadedFile "data.zip" 1024))
    zip_unreadable_error.
Proof.
  intros unreadable host.
  destruct (validate_zip_integrity_rejects_when host
              (mkUploadedFile "data.zip" 1024)) as [Hzip _].
  destruct (Hzip eq_refl) as (_ & Htest & _).
  apply (Htest unreadable); reflexivity.
Defined.

(** C4, as the claim states it, fails in three places.  An archive that
    opens but whose integrity test raises an I/O error is rejected,
    although opening raised nothing and the test named no member.  An
    archive whose test returns the empty member name passes.  And the
    upload [datazip], which is no [.zip] candidate, is inspected and
    rejected when it cannot be opened. *)
Lemma validate_zip_integrity_claim_fails :
  (let unreadable := {| testzip := inl TestIOError; namelist := ["a.xml"] |} in
   let host := Sample.host_with "" (inr unreadable) None [] "" 0 in
   let f := mkUploadedFile "data.zip" 1024 in
   ZipFile host (upload_path host f) = inr unreadable /\
   (forall member, testzip unreadable <> inr (Some member)) /\
   rejects_with (validate_zip_integrity host f) zip_unreadable_error) /\
  (let nameless := {| testzip := inr (Some ""); namelist := ["a.xml"; ""] |} in
   let host := Sample.host_with "" (inr nameless) None [] "" 0 in
   let f := mkUploadedFile "data.zip" 1024 in
   ZipFile host (upload_path host f) = inr nameless /\
   testzip nameless = inr (Some "") /\
   passes (validate_zip_integrity host f)) /\
  (let host := Sample.host_with "" (inl IOError) None [] "" 0 in
   let f := mkUploadedFile "datazip" 1024 in
   endswith (name f) ".zip" = false /\
   rejects_with (validate_zip_integrity host f) zip_unreadable_error).
Proof.
  repeat split. intros member E. discriminate E.
Qed.

(** An archive all of whose entries end in [.xml] passes the contents
    stage. *)
Lemma validate_zip_contents_passes_all_xml (host : Host) (f : UploadedFile)
    (a : ZipArchive) :
  ZipFile host (upload_path host f) = inr a ->
  (forall item, In item (namelist a) -> endswith item ".xml" = true) ->
  passes (validate_zip_contents host f).
Proof.
  intros E H. unfold passes. rewrite validate_zip_contents_outcome, E.
  destruct (endswith (name f) "zip"); [|reflexivity].
  destruct (existsb _ (namelist a)) eqn:X; [|reflexivity].
  apply existsb_exists in X as (item & I & N).
  apply negb_true_iff in N.
  rewrite (endswith_shorter item "." "xml" (H item I)) in N. discriminate N.
Qed.

(** An entry that does not end in [xml] makes the contents stage reject a
    [.zip] candidate. *)
Lemma validate_zip_contents_rejects (host : Host) (f : UploadedFile)
    (a : ZipArchive) (item : string) :
  endswith (name f) ".zip" = true ->
  ZipFile host (upload_path host f) = inr a ->
  In item (namelist a) -> endswith item "xml" = false ->
  rejects_with (validate_zip_contents host f) zip_contents_error.
Proof.
  intros Hz E I N. unfold rejects_with.
  rewrite validate_zip_contents_outcome, E, (endswith_zip_of_dotted _ Hz).
  assert (X : existsb (fun item => negb (endswith item "xml")) (namelist a)
              = true).
  { apply existsb_exists. exists item. now rewrite N. }
  now rewrite X.
Qed.

(** C2.  Every [.zip] candidate whose archive holds an entry that does
    not end in [.xml] should be rejected with the zip-contents error.
    The stage tests the suffix [xml] without the dot: the archive
    [data.zip] with the entries [notes.xml] and [readmexml] holds an
    entry that does not end in [.xml], and the contents stage lets it
    pass. *)
Theorem validate_zip_contents_misses_the_dot :
  let host := Sample.healthy_zip_host ["notes.xml"; "readmexml"] in
  let candidate := mkUploadedFile "data.zip" 1024 in
  endswith (name candidate) ".zip" = true /\
  (exists a,
     ZipFile host (upload_path host candidate) = inr a /\
     In "readmexml" (namelist a) /\
     endswith "readmexml" ".xml" = false) /\
  validate_zip_contents host candidate = inr tt /\
  validate_zip_contents host candidate <> inl (Invalid zip_contents_error).
Proof.
  repeat split; try discriminate.
  eexists. repeat split. simpl. auto.
Qed.

(* ===================================================================== *)
(** * The XML stages on archives *)
(* ===================================================================== *)

(** A name that ends in [.zip] does not have the extension [.xml]. *)
Lemma dotted_zip_not_xml (f : UploadedFile) :
  endswith (name f) ".zip" = true -> declared_extension f <> ".xml".
Proof.
  intros Hz Hx. apply splitext_ext_endswith in Hx.
  assert (E : ".zip" = ".xml")
    by (apply (endswith_same_length (name f)); auto).
  discriminate E.
Qed.

(** The two XML stages on a [.zip] candidate, as functions of what the
    extraction gives. *)
Lemma validate_xml_well_formedness_zip (host : Host) (f : UploadedFile) :
  declared_extension f = ".zip" ->
  validate_xml_well_formedness host f =
    match extract_archive host (upload_path host f) with
    | Some folder_name =>
        if truthy folder_name
        then for_each (listdir host (get_tmp_path host [folder_name]))
               (check_member_well_formed host folder_name)
        else inr tt
    | None => inr tt
    end.
Proof.
  unfold declared_extension, validate_xml_well_formedness, file_on_disk.
  intros ->. reflexivity.
Qed.

Lemma validate_against_schema_zip (settings : Settings) (host : Host)
    (f : UploadedFile) :
  declared_extension f = ".zip" ->
  validate_against_schema settings host f =
    match extract_archive host (upload_path host f) with
    | Some folder_name =>
        if truthy folder_name
        then for_each (listdir host (get_tmp_path host [folder_name]))
               (check_member_against_schema settings host folder_name)
        else inr tt
    | None => inr tt
    end.
Proof.
  unfold declared_extension, validate_against_schema, file_on_disk.
  intros ->. reflexivity.
Qed.

(** A candidate whose extension is neither [.zip] nor [.xml] is not
    looked at by the XML stages. *)
Lemma xml_stages_skip_other_extensions (settings : Settings) (host : Host)
    (f : UploadedFile) :
  declared_extension f <> ".zip" -> declared_extension f <> ".xml" ->
  passes (validate_xml_well_formedness host f) /\
  passes (validate_against_schema settings host f).
Proof.
  unfold declared_extension, passes, validate_xml_well_formedness,
    validate_against_schema, file_on_disk.
  intros Nz Nx. apply String.eqb_neq in Nz, Nx. rewrite Nz, Nx. auto.
Qed.

(** C5.  For a candidate whose name ends in [.zip]: when [ZipFile] raises
    (an I/O error or a bad zip file) in the contents stage the stage has
    nothing to list and passes; when the extraction gives no workspace
    the well-formedness stage and the schema stage have nothing to check
    and pass. *)
Theorem later_stages_pass_on_unreadable_archive (settings : Settings)
    (host : Host) (f : UploadedFile) :
  endswith (name f) ".zip" = true ->
  (forall z, ZipFile host (upload_path host f) = inl z ->
     passes (validate_zip_contents host f)) /\
  (extract_archive host (upload_path host f) = None ->
     passes (validate_xml_well_formedness host f) /\
     passes (validate_against_schema settings host f)).
Proof.
  intros Hz. split.
  - intros z E. unfold passes.
    rewrite validate_zip_contents_outcome, E.
    now destruct (endswith (name f) "zip").
  - intros E.
    destruct (string_dec (declared_extension f) ".zip") as [Z|Z].
    + unfold passes.
      rewrite (validate_xml_well_formedness_zip host f Z),
        (validate_against_schema_zip settings host f Z), E. auto.
    + apply xml_stages_skip_other_extensions;
        [exact Z | now apply dotted_zip_not_xml].
Qed.

Lemma later_stages_pass_on_unreadable_archive_witness :
  let host := Sample.host_with
                ("/tmp/data.zip: application/zip" ++ Sample.newline)
                (inl BadZipFile) None [] "not well-formed" 1 in
  let candidate := mkUploadedFile "data.zip" 1024 in
  passes (validate_zip_contents host candidate) /\
  passes (validate_xml_well_formedness host candidate) /\
  passes (validate_against_schema Sample.settings host candidate).
Proof.
  intros host candidate.
  destruct (later_stages_pass_on_unreadable_archive Sample.settings host
              candidate eq_refl) as [Hcontents Hxml].
  split.
  - apply (Hcontents BadZipFile). reflexivity.
  - apply Hxml. reflexivity.
Defined.

(* ===================================================================== *)
(** * Command lines that split as written *)
(* ===================================================================== *)

Lemma is_escape_eqb (c : ascii) :
  Shlex.is_escape c = Ascii.eqb c Shlex.backslash.
Proof. destruct c as [[] [] [] [] [] [] [] []]; reflexivity. Qed.

Lemma shell_safe_cons (c : ascii) (p : string) :
  shell_safe (String c p) = true ->
  Ascii.eqb c (ascii_of_nat 34) = false /\
  Shlex.is_escape c = false /\
  shell_safe p = true.
Proof.
  unfold shell_safe. cbn [occurs]. rewrite is_escape_eqb.
  rewrite andb_true_iff, !negb_true_iff, !orb_false_iff.
  intros [[A B] [C D]]. rewrite B, D. auto.
Qed.

Lemma run_append (a b : string) (cfg : Shlex.config) :
  Shlex.run (a ++ b) cfg = Shlex.run b (Shlex.run a cfg).
Proof.
  revert cfg. induction a as [|c a IH]; intros cfg; cbn [append Shlex.run];
    [reflexivity | apply IH].
Qed.

(** Inside double quotes a [shell_safe] text is taken as it is, up to the
    closing quote. *)
Lemma run_in_quote (p : string) :
  shell_safe p = true ->
  forall tok quoted acc,
    Shlex.run (p ++ dquote)
      (Shlex.mkConfig (Shlex.InQuote (ascii_of_nat 34)) tok quoted acc)
    = Shlex.mkConfig Shlex.Word (tok ++ p) true acc.
Proof.
  induction p as [|c p IH]; intros Hs tok quoted acc.
  - cbn. now rewrite append_nil_r.
  - destruct (shell_safe_cons _ _ Hs) as (Hq & He & Hp).
    cbn [append Shlex.run]. unfold Shlex.step.
    cbn [Shlex.state_of Shlex.token Shlex.quoted Shlex.tokens].
    rewrite Hq, He. cbn [andb].
    rewrite (IH Hp). now rewrite append_assoc.
Qed.

(** The command line of [xmlwf] splits into the tool and the path. *)
Lemma split_xmlwf_command (p : string) :
  shell_safe p = true ->
  Shlex.split (xmlwf_command p) = inr (xmlwf_argv p).
Proof.
  intros Hs. unfold Shlex.split, xmlwf_command.
  rewrite <- (append_assoc "xmlwf " dquote (p ++ dquote)).
  rewrite run_append.
  change (Shlex.run ("xmlwf " ++ dquote) Shlex.initial)
    with (Shlex.mkConfig (Shlex.InQuote (ascii_of_nat 34)) "" false ["xmlwf"]).
  rewrite (run_in_quote p Hs). unfold Shlex.finish.
  cbn [Shlex.state_of Shlex.token Shlex.quoted Shlex.tokens append].
  now rewrite orb_true_r.
Qed.

(** A blank and an opening double quote after a quoted word: the word is
    handed out and a new quoted token begins. *)
Lemma run_blank_then_quote (tok : string) (acc : list string) :
  Shlex.run (" " ++ dquote) (Shlex.mkConfig Shlex.Word tok true acc)
  = Shlex.mkConfig (Shlex.InQuote (ascii_of_nat 34)) "" false
      (acc ++ [tok])%list.
Proof.
  cbn [append Shlex.run dquote].
  unfold Shlex.step at 2.
  cbn [Shlex.state_of Shlex.token Shlex.quoted Shlex.tokens].
  change (Shlex.is_whitespace " ") with true. cbv iota.
  unfold Shlex.at_whitespace.
  cbn [Shlex.state_of Shlex.token Shlex.quoted Shlex.tokens].
  rewrite orb_true_r. reflexivity.
Qed.

Lemma split_xmllint_command (settings : Settings) (p : string) :
  shell_safe (SCHEMA_PATH settings) = true ->
  shell_safe p = true ->
  Shlex.split (xmllint_command settings p) = inr (xmllint_argv settings p).
Proof.
  intros Hschema Hs. unfold Shlex.split, xmllint_command.
  rewrite <- (append_assoc "xmllint --noout --schema " dquote).
  rewrite run_append.
  change (Shlex.run ("xmllint --noout --schema " ++ dquote) Shlex.initial)
    with (Shlex.mkConfig (Shlex.InQuote (ascii_of_nat 34)) "" false
            ["xmllint"; "--noout"; "--schema"]).
  rewrite <- (append_assoc (SCHEMA_PATH settings) dquote).
  rewrite run_append, (run_in_quote _ Hschema).
  rewrite <- (append_assoc " " dquote).
  rewrite run_append, run_blank_then_quote, (run_in_quote p Hs).
  unfold Shlex.finish.
  cbn [Shlex.state_of Shlex.token Shlex.quoted Shlex.tokens append app].
  now rewrite orb_true_r.
Qed.

(* ===================================================================== *)
(** * The members of an extracted archive *)
(* ===================================================================== *)

Lemma checked_entry_iff (n : string) :
  checked_entry n = true <-> endswith n ".xml" = true /\ n <> "om.xml".
Proof.
  unfold checked_entry.
  now rewrite andb_true_iff, negb_true_iff, String.eqb_neq.
Qed.

(** On an entry whose path is [shell_safe] the loop bodies start the tool
    on that path. *)
Lemma check_member_well_formed_safe (host : Host) (folder n : string) :
  (checked_entry n = true -> shell_safe (get_tmp_path host [folder; n]) = true) ->
  check_member_well_formed host folder n = member_well_formed host folder n.
Proof.
  unfold check_member_well_formed, member_well_formed.
  fold (checked_entry n). destruct (checked_entry n); [|reflexivity].
  intros H. now rewrite (split_xmlwf_command _ (H eq_refl)).
Qed.

Lemma check_member_against_schema_safe (settings : Settings) (host : Host)
    (folder n : string) :
  shell_safe (SCHEMA_PATH settings) = true ->
  (checked_entry n = true -> shell_safe (get_tmp_path host [folder; n]) = true) ->
  check_member_against_schema settings host folder n
  = member_against_schema settings host folder n.
Proof.
  unfold check_member_against_schema, member_against_schema.
  fold (checked_entry n). destruct (checked_entry n); [|reflexivity].
  intros Hschema H.
  now rewrite (split_xmllint_command settings _ Hschema (H eq_refl)).
Qed.

Lemma member_well_formed_outcome (host : Host) (folder n : string) :
  let out :=
    popen_argv_stdout host (xmlwf_argv (get_tmp_path host [folder; n])) in
  (member_well_formed host folder n =
     inl (Invalid files_wellformedness_error) <->
   checked_entry n = true /\ out <> "") /\
  (member_well_formed host folder n = inr tt <->
   (checked_entry n = true -> out = "")) /\
  (member_well_formed host folder n = inr tt \/
   member_well_formed host folder n =
     inl (Invalid files_wellformedness_error)).
Proof.
  intros out. subst out. unfold member_well_formed.
  destruct (checked_entry n).
  - destruct (truthy _) eqn:T.
    + apply truthy_iff in T. cbn.
      repeat split; intros; break_cases; auto.
      exfalso. auto.
    + assert (E : popen_argv_stdout host
                    (xmlwf_argv (get_tmp_path host [folder; n])) = "").
      { apply negb_false_iff in T. now apply String.eqb_eq in T. }
      cbn. repeat split; intros; break_cases; auto. congruence.
  - cbn. repeat split; intros; break_cases; auto.
Qed.

Lemma member_against_schema_outcome (settings : Settings)
    (host : Host) (folder n : string) :
  let code := popen_wait host
                (xmllint_argv settings (get_tmp_path host [folder; n])) in
  (member_against_schema settings host folder n =
     inl (Invalid files_schema_conformity_error) <->
   checked_entry n = true /\ code <> 0%Z) /\
  (member_against_schema settings host folder n = inr tt <->
   (checked_entry n = true -> code = 0%Z)) /\
  (member_against_schema settings host folder n = inr tt \/
   member_against_schema settings host folder n =
     inl (Invalid files_schema_conformity_error)).
Proof.
  intros code. subst code. unfold member_against_schema.
  destruct (checked_entry n).
  - destruct (Z.eqb_spec
                (popen_wait host
                   (xmllint_argv settings (get_tmp_path host [folder; n])))
                0) as [E|E]; cbn.
    + repeat split; intros; break_cases; auto. congruence.
    + repeat split; intros; break_cases; auto. exfalso. auto.
  - cbn. repeat split; intros; break_cases; auto.
Qed.

(** Two loop bodies that agree on the entries of a list give the same
    loop. *)
Lemma for_each_ext_in {A : Type} (xs : list A) (b1 b2 : A -> M unit) :
  (forall x, In x xs -> b1 x = b2 x) -> for_each xs b1 = for_each xs b2.
Proof.
  induction xs as [|x xs IH]; intros H; simpl; [reflexivity|].
  rewrite (H x (or_introl eq_refl)), IH; [reflexivity|].
  intros y I. apply H. now right.
Qed.

(** C8.  Every extracted entry that ends in [.xml], [om.xml] apart,
    should be checked, and a failing one should give the archive-scoped
    rejection.  The stages put the entry's path between double quotes
    and split the line with [shlex.split]: in the archive [data.zip]
    with two entries, the first with a double quote in its name and the
    second [b.xml], where the tools fail on [b.xml] (listed alone it is
    rejected), the double quote in the first name stops both stages with
    a [ValueError], and no rejection is raised. *)
Theorem archive_member_with_quote_stops_the_check :
  let quoted := "a" ++ dquote ++ ".xml" in
  let zip := inr {| testzip := inr None; namelist := [quoted; "b.xml"] |} in
  let host := Sample.host_with "" zip (Some "data") [quoted; "b.xml"]
                "b.xml:1:0: syntax error" 1 in
  let host_b := Sample.host_with "" zip (Some "data") ["b.xml"]
                  "b.xml:1:0: syntax error" 1 in
  let f := mkUploadedFile "data.zip" 1024 in
  declared_extension f = ".zip" /\
  checked_entry quoted = true /\ checked_entry "b.xml" = true /\
  validate_xml_well_formedness host_b f
    = inl (Invalid files_wellformedness_error) /\
  validate_against_schema Sample.settings host_b f
    = inl (Invalid files_schema_conformity_error) /\
  validate_xml_well_formedness host f
    = inl (ValueError "No closing quotation") /\
  validate_against_schema Sample.settings host f
    = inl (ValueError "No closing quotation").
Proof. repeat split. Qed.

(** X14.  For a candidate of extension [.zip] whose extraction gave the
    workspace [folder], and when the path of every entry the stages look
    at holds no double quote and no backslash: the well-formedness stage
    starts [xmlwf] on every entry that ends in [.xml] and is not named
    [om.xml], and on no other; it rejects with the archive-scoped error
    exactly when [xmlwf] prints something for one of them and passes
    exactly when it prints nothing for all of them.  When the schema path
    is such a path too, the same holds of the schema stage with the exit
    code of [xmllint]. *)
Theorem archive_xml_stages_check_safe_members (settings : Settings)
    (host : Host) (f : UploadedFile) (folder : string) :
  declared_extension f = ".zip" ->
  extract_archive host (upload_path host f) = Some folder ->
  folder <> "" ->
  entries_shell_safe host folder ->
  let entries := listdir host (get_tmp_path host [folder]) in
  let wf_output n :=
    popen_argv_stdout host (xmlwf_argv (get_tmp_path host [folder; n])) in
  let lint_code n :=
    popen_wait host (xmllint_argv settings (get_tmp_path host [folder; n])) in
  (forall n, checked_entry n = true <->
             endswith n ".xml" = true /\ n <> "om.xml") /\
  (rejects_with (validate_xml_well_formedness host f)
     files_wellformedness_error <->
   exists n, In n entries /\ checked_entry n = true /\ wf_output n <> "") /\
  (passes (validate_xml_well_formedness host f) <->
   forall n, In n entries -> checked_entry n = true -> wf_output n = "") /\
  (shell_safe (SCHEMA_PATH settings) = true ->
   (rejects_with (validate_against_schema settings host f)
      files_schema_conformity_error <->
    exists n, In n entries /\ checked_entry n = true /\ lint_code n <> 0%Z) /\
   (passes (validate_against_schema settings host f) <->
    forall n, In n entries -> checked_entry n = true -> lint_code n = 0%Z)).
Proof.
  intros Hext Hfolder Hname Hsafe entries wf_output lint_code.
  apply truthy_iff in Hname.
  unfold passes, rejects_with.
  rewrite (validate_xml_well_formedness_zip host f Hext),
    (validate_against_schema_zip settings host f Hext), Hfolder, Hname.
  fold entries.
  rewrite (for_each_ext_in entries _ (member_well_formed host folder))
    by (intros n I; apply check_member_well_formed_safe; auto).
  split; [exact checked_entry_iff|].
  split; [|split].
  - destruct (for_each_raises_iff entries
                (member_well_formed host folder)
                (Invalid files_wellformedness_error)) as [R _].
    { intros n. apply member_well_formed_outcome. }
    rewrite R. split; intros (n & I & H); exists n; (split; [exact I|]);
      destruct (member_well_formed_outcome host folder n)
        as (P & _ & _); apply P; exact H.
  - rewrite for_each_passes_iff. split; intros H n I;
      destruct (member_well_formed_outcome host folder n)
        as (_ & P & _).
    + intros C. exact (proj1 P (H n I) C).
    + apply (proj2 P). exact (H n I).
  - intros Hschema.
    rewrite (for_each_ext_in entries _
               (member_against_schema settings host folder))
      by (intros n I; apply check_member_against_schema_safe; auto).
    split.
    + destruct (for_each_raises_iff entries
                  (member_against_schema settings host folder)
                  (Invalid files_schema_conformity_error)) as [R _].
      { intros n. apply member_against_schema_outcome. }
      rewrite R. split; intros (n & I & H); exists n; (split; [exact I|]);
        destruct (member_against_schema_outcome settings host folder n)
          as (P & _ & _); apply P; exact H.
    + rewrite for_each_passes_iff. split; intros H n I;
        destruct (member_against_schema_outcome settings host folder n)
          as (_ & P & _).
      * intros C. exact (proj1 P (H n I) C).
      * apply (proj2 P). exact (H n I).
Qed.

Lemma archive_xml_stages_check_safe_members_witness :
  let host := Sample.host_with
                ("/tmp/data.zip: application/zip" ++ Sample.newline)
                (inr {| testzip := inr None; namelist := ["a.xml"; "om.xml"] |})
                (Some "data") ["a.xml"; "om.xml"] "" 0 in
  let candidate := mkUploadedFile "data.zip" 1024 in
  passes (validate_xml_well_formedness host candidate) /\
  passes (validate_against_schema Sample.settings host candidate).
Proof.
  intros host candidate.
  destruct (archive_xml_stages_check_safe_members Sample.settings host
              candidate "data" eq_refl eq_refl)
    as (_ & _ & Hwf & Hschema); [discriminate | |].
  - intros n [<-|[<-|[]]] _; reflexivity.
  - split; [apply Hwf | apply (Hschema eq_refl)]; reflexivity.
Defined.

(* ===================================================================== *)
(** * The pipeline *)
(* ===================================================================== *)

Section PipelineFacts.

Variable settings : Settings.
Variable host : Host.
Variable f : UploadedFile.

Lemma run_stages_all_pass (stages : list Stage) :
  (forall s, In s stages -> run_stage settings host s f = inr tt) ->
  run_stages settings host stages f = (stages, inr tt).
Proof.
  induction stages as [|s stages IH]; intros H; cbn [run_stages].
  - reflexivity.
  - rewrite (H s (or_introl eq_refl)), IH; [reflexivity|].
    intros s' I. apply H. now right.
Qed.

(** The runner stops at the first stage that raises. *)
Lemma run_stages_first_failure (before after : list Stage) (s : Stage)
    (e : exn) :
  (forall s', In s' before -> run_stage settings host s' f = inr tt) ->
  run_stage settings host s f = inl e ->
  run_stages settings host (before ++ s :: after)%list f =
    ((before ++ [s])%list, inl e).
Proof.
  induction before as [|b before IH]; intros H E; cbn [run_stages app].
  - now rewrite E.
  - rewrite (H b (or_introl eq_refl)), IH; [reflexivity| |exact E].
    intros s' I. apply H. now right.
Qed.

(** Either every stage passes, or there is a first one that raises. *)
Lemma stages_pass_or_first_failure (stages : list Stage) :
  (forall s, In s stages -> run_stage settings host s f = inr tt) \/
  exists before s after e,
    stages = (before ++ s :: after)%list /\
    (forall s', In s' before -> run_stage settings host s' f = inr tt) /\
    run_stage settings host s f = inl e.
Proof.
  induction stages as [|s stages IH].
  - left. intros s [].
  - destruct (run_stage settings host s f) as [e|[]] eqn:R.
    + right. exists [], s, stages, e. repeat split; auto. intros s' [].
    + destruct IH as [IH|(before & s1 & after & e & -> & Hb & E)].
      * left. intros s' [<-|I]; auto.
      * right. exists (s :: before), s1, after, e. repeat split; auto.
        intros s' [<-|I]; auto.
Qed.

End PipelineFacts.

(** C6.  The pipeline runs the stages in the order extension, size,
    MIME type, zip integrity, zip contents, well-formedness, schema
    conformity.  It reports at most one validation error per candidate.
    The stages it enters are an initial segment of that order; when a
    stage rejects after all the stages before it passed, the pipeline
    enters no later stage and reports that stage's error and no other;
    when every stage passes nothing is reported and the candidate is
    accepted.  A rejection always is the error of the first stage that
    fails. *)
Theorem pipeline_is_fail_fast (settings : Settings) (host : Host)
    (f : UploadedFile) :
  stage_order =
    [ExtensionCheck; SizeCheck; MimeTypeCheck; ZipIntegrityCheck;
     ZipContentsCheck; WellFormednessCheck; SchemaConformityCheck] /\
  (length (reported_errors settings host f) <= 1)%nat /\
  (exists not_entered,
     stage_order =
       (fst (run_stages settings host stage_order f) ++ not_entered)%list) /\
  (forall before s after e,
     stage_order = (before ++ s :: after)%list ->
     (forall s', In s' before -> passes (run_stage settings host s' f)) ->
     rejects_with (run_stage settings host s f) e ->
     fst (run_stages settings host stage_order f) = (before ++ [s])%list /\
     reported_errors settings host f = [e] /\
     validate settings host f = inr (Rejected e)) /\
  ((forall s, In s stage_order -> passes (run_stage settings host s f)) ->
     fst (run_stages settings host stage_order f) = stage_order /\
     reported_errors settings host f = [] /\
     validate settings host f = inr Accepted) /\
  (forall e,
     validate settings host f = inr (Rejected e) ->
     exists before s after,
       stage_order = (before ++ s :: after)%list /\
       (forall s', In s' before -> passes (run_stage settings host s' f)) /\
       rejects_with (run_stage settings host s f) e).
Proof.
  unfold passes, rejects_with.
  split; [reflexivity|]. split; [|split; [|split; [|split]]].
  - unfold reported_errors.
    destruct (snd (run_stages settings host stage_order f)) as [[]|]; simpl; lia.
  - destruct (stages_pass_or_first_failure settings host f stage_order)
      as [H|(before & s & after & e & E & Hb & R)].
    + exists []. rewrite (run_stages_all_pass _ _ _ _ H).
      cbn [fst]. now rewrite app_nil_r.
    + exists after. rewrite E.
      rewrite (run_stages_first_failure _ _ _ _ _ _ _ Hb R).
      cbn [fst]. now rewrite <- app_assoc.
  - intros before s after e E Hb R.
    unfold reported_errors, validate. rewrite E.
    rewrite (run_stages_first_failure _ _ _ _ _ _ _ Hb R). auto.
  - intros H. unfold reported_errors, validate.
    rewrite (run_stages_all_pass _ _ _ _ H). auto.
  - intros e V.
    destruct (stages_pass_or_first_failure settings host f stage_order)
      as [H|(before & s & after & e' & E & Hb & R)].
    + unfold validate in V. rewrite (run_stages_all_pass _ _ _ _ H) in V.
      discriminate V.
    + exists before, s, after. repeat split; auto.
      unfold validate in V. rewrite E in V.
      rewrite (run_stages_first_failure _ _ _ _ _ _ _ Hb R) in V.
      cbn [snd] in V. destruct e'; try discriminate V.
      now injection V as ->.
Qed.

Lemma pipeline_is_fail_fast_witness :
  let host := Sample.host_with "" (inl IOError) None [] "not well-formed" 1 in
  let candidate := mkUploadedFile "data.zip" 1024 in
  fst (run_stages Sample.settings host stage_order candidate) =
    [ExtensionCheck; SizeCheck; MimeTypeCheck] /\
  reported_errors Sample.settings host candidate =
    [mime_type_error ".zip" ""] /\
  validate Sample.settings host candidate =
    inr (Rejected (mime_type_error ".zip" "")).
Proof.
  intros host candidate.
  destruct (pipeline_is_fail_fast Sample.settings host candidate)
    as (_ & _ & _ & Hfirst & _).
  apply (Hfirst [ExtensionCheck; SizeCheck] MimeTypeCheck
           [ZipIntegrityCheck; ZipContentsCheck; WellFormednessCheck;
            SchemaConformityCheck]).
  - reflexivity.
  - intros s' [<-|[<-|[]]]; reflexivity.
  - reflexivity.
Defined.

(** An upload that passes the extension stage and is larger than
    [MAX_UPLOAD_SIZE] is rejected with the size error on every host: no
    stage that reads the content is entered. *)
Corollary oversized_upload_is_rejected (settings : Settings) (host : Host)
    (f : UploadedFile) :
  passes (validate_extension f) ->
  (MAX_UPLOAD_SIZE settings < size f)%Z ->
  validate settings host f = inr (Rejected (size_error settings)) /\
  fst (run_stages settings host stage_order f) = [ExtensionCheck; SizeCheck].
Proof.
  intros Pext Hbig.
  assert (R : run_stage settings host SizeCheck f =
              inl (Invalid (size_error settings))).
  { cbn [run_stage]. rewrite validate_size_cases.
    apply Z.ltb_lt in Hbig. now rewrite Hbig. }
  unfold validate.
  change stage_order with
    ([ExtensionCheck] ++ SizeCheck ::
       [MimeTypeCheck; ZipIntegrityCheck; ZipContentsCheck;
        WellFormednessCheck; SchemaConformityCheck])%list.
  rewrite (run_stages_first_failure settings host f [ExtensionCheck] _
             SizeCheck (Invalid (size_error settings)));
    [split; reflexivity | | exact R].
  intros s' [<-|[]]. exact Pext.
Qed.

(* ===================================================================== *)
(** * Names in upper or mixed case *)
(* ===================================================================== *)

Lemma endswith_lower (s x : string) :
  endswith s x = true -> endswith (lower s) (lower x) = true.
Proof.
  rewrite !endswith_iff. intros [pre ->]. exists (lower pre).
  apply lower_append.
Qed.

(** What the later stages see of a name in upper or mixed case: it does
    not end in [zip], and its extension is neither [.zip] nor [.xml]. *)
Lemma case_variant_not_recognised (nm : string) :
  case_variant ".zip" nm \/ case_variant ".xml" nm ->
  endswith (lower nm) "zip" || endswith (lower nm) "xml" = true /\
  endswith nm "zip" = false /\
  snd (splitext nm) <> ".zip" /\
  snd (splitext nm) <> ".xml".
Proof.
  intros [[Hl Hn]|[Hl Hn]].
  - pose proof (endswith_shorter _ "." "zip" Hl) as Hl3.
    repeat split.
    + now rewrite Hl3.
    + destruct (endswith nm "zip") eqn:H3; [|reflexivity].
      pose proof (endswith_dot_of_lower nm "zip" Hl H3) as H4.
      change ("." ++ "zip") with ".zip" in H4. congruence.
    + intros E. apply splitext_ext_endswith in E. congruence.
    + intros E. apply splitext_ext_endswith, endswith_lower in E.
      assert (X : ".zip" = lower ".xml")
        by (apply (endswith_same_length (lower nm)); auto).
      discriminate X.
  - pose proof (endswith_shorter _ "." "xml" Hl) as Hl3.
    repeat split.
    + rewrite Hl3. apply orb_true_r.
    + destruct (endswith nm "zip") eqn:H3; [|reflexivity].
      apply endswith_lower in H3.
      assert (X : "xml" = lower "zip")
        by (apply (endswith_same_length (lower nm)); auto).
      discriminate X.
    + intros E. apply splitext_ext_endswith, endswith_lower in E.
      assert (X : ".xml" = lower ".zip")
        by (apply (endswith_same_length (lower nm)); auto).
      discriminate X.
    + intros E. apply splitext_ext_endswith in E. congruence.
Qed.

(** C3.  A candidate whose name ends in an upper-case or mixed-case
    variant of [.zip] or [.xml] passes the extension stage, which
    lower-cases the name.  The MIME-type, zip-integrity, zip-contents,
    well-formedness and schema stages compare the name as it is: on every
    host, whatever the sniffer, the archive and the XML tools would say,
    they raise nothing.  Such a candidate is accepted whenever its size
    does not exceed [MAX_UPLOAD_SIZE]. *)
Theorem case_variant_is_accepted_unchecked (settings : Settings)
    (host : Host) (f : UploadedFile) :
  case_variant ".zip" (name f) \/ case_variant ".xml" (name f) ->
  passes (validate_extension f) /\
  passes (validate_mime_type settings host f) /\
  passes (validate_zip_integrity host f) /\
  passes (validate_zip_contents host f) /\
  passes (validate_xml_well_formedness host f) /\
  passes (validate_against_schema settings host f) /\
  ((size f <= MAX_UPLOAD_SIZE settings)%Z ->
   validate settings host f = inr Accepted).
Proof.
  intros V.
  destruct (case_variant_not_recognised _ V) as (Hext & Hzip & Nz & Nx).
  assert (Pext : passes (validate_extension f))
    by (now apply validate_extension_outcome).
  assert (Pmime : passes (validate_mime_type settings host f)).
  { destruct (detected_mime_type_total host f) as (mime & D & _).
    unfold passes. rewrite (validate_mime_type_outcome _ _ _ _ D).
    unfold declared_extension.
    apply String.eqb_neq in Nz, Nx. now rewrite Nz, Nx. }
  assert (Pint : passes (validate_zip_integrity host f)).
  { unfold passes. now rewrite validate_zip_integrity_outcome, Hzip. }
  assert (Pcon : passes (validate_zip_contents host f)).
  { unfold passes. now rewrite validate_zip_contents_outcome, Hzip. }
  destruct (xml_stages_skip_other_extensions settings host f Nz Nx)
    as [Pwf Psch].
  repeat split; auto.
  intros Hsize.
  assert (Psize : passes (validate_size settings f))
    by (now apply validate_size_passes).
  unfold validate. rewrite run_stages_all_pass; [reflexivity|].
  intros s I. unfold stage_order in I. simpl in I.
  decompose [or] I; subst; try contradiction; assumption.
Qed.

Lemma case_variant_is_accepted_unchecked_witness :
  let host := Sample.host_with
                ("/tmp/DATA.ZIP: application/octet-stream" ++ Sample.newline)
                (inl IOError) None ["notes.txt"] "not well-formed" 1 in
  validate Sample.settings host (mkUploadedFile "DATA.ZIP" 1024) =
    inr Accepted.
Proof.
  intros host.
  apply (case_variant_is_accepted_unchecked Sample.settings host
           (mkUploadedFile "DATA.ZIP" 1024)).
  - left. split; reflexivity.
  - simpl. lia.
Defined.

(* ===================================================================== *)
(** * The extension read off a name *)
(* ===================================================================== *)

Lemma occurs_append (ch : ascii) (a b : string) :
  occurs ch (a ++ b) = occurs ch a || occurs ch b.
Proof.
  induction a as [|c a IH]; simpl; [reflexivity|].
  now rewrite IH, orb_assoc.
Qed.

Lemma rfind_from_absent (ch : ascii) (s : string) :
  occurs ch s = false -> forall i best, rfind_from ch s i best = best.
Proof.
  induction s as [|c s IH]; simpl; intros H i best; [reflexivity|].
  apply orb_false_iff in H as [Hc Hs]. now rewrite Hc, IH.
Qed.

(** [rfind] finds the last occurrence. *)
Lemma rfind_from_last (ch : ascii) (a b : string) :
  occurs ch b = false ->
  forall i best,
    rfind_from ch (a ++ String ch b) i best
    = (i + Z.of_nat (String.length a))%Z.
Proof.
  intros Hb. induction a as [|c a IH]; intros i best.
  - cbn [append rfind_from String.length]. rewrite Ascii.eqb_refl.
    rewrite (rfind_from_absent _ _ Hb). cbn. lia.
  - cbn [append rfind_from String.length]. rewrite IH. lia.
Qed.

Lemma rfind_from_lower_bound (ch : ascii) (s : string) :
  forall i best, (best <= i)%Z -> (best <= rfind_from ch s i best)%Z.
Proof.
  induction s as [|c s IH]; intros i best H; cbn [rfind_from]; [lia|].
  destruct (Ascii.eqb c ch).
  - specialize (IH (i + 1)%Z i). lia.
  - apply IH. lia.
Qed.

Lemma slice_to_append (a b : string) :
  slice_to (String.length a) (a ++ b) = a.
Proof. induction a as [|x a IH]; simpl; [reflexivity | now rewrite IH]. Qed.

(** X1.  For a name made of a plain stem, a dot and an extension that
    holds neither a dot nor a slash, [splitext] cuts at that last dot:
    the root is the stem and the extension is the dot with what follows.
    So the extension the validators compare with [.zip] and [.xml] is the
    visible one for names such as [data.zip] or [my.notes.xml]. *)
Theorem splitext_plain_name (stem ext : string) :
  plain_stem stem ->
  occurs "." ext = false -> occurs "/" ext = false ->
  splitext (stem ++ "." ++ ext) = (stem, "." ++ ext).
Proof.
  intros [Hslash (c & rest & Hstem & Hc)] Hdot Hsl.
  unfold splitext, rfind.
  assert (Hno : occurs "/" (stem ++ "." ++ ext) = false).
  { rewrite occurs_append, Hslash. cbn. exact Hsl. }
  rewrite (rfind_from_absent _ _ Hno).
  change (stem ++ "." ++ ext) with (stem ++ String "." ext).
  rewrite (rfind_from_last "." stem ext Hdot).
  rewrite Z.add_0_l, Nat2Z.id.
  rewrite slice_to_append, slice_from_append.
  replace (-1 <? Z.of_nat (String.length stem))%Z with true
    by (symmetry; apply Z.ltb_lt; lia).
  replace (Z.to_nat (Z.of_nat (String.length stem) - (-1 + 1)))
    with (String.length stem) by lia.
  change (Z.to_nat (-1 + 1)) with 0%nat.
  subst stem. cbn [String.length has_non_dot append item String.get].
  apply Ascii.eqb_neq in Hc. now rewrite Hc.
Qed.

Lemma splitext_plain_name_witness :
  splitext "my.notes.xml" = ("my.notes", ".xml").
Proof.
  apply (splitext_plain_name "my.notes" "xml"); try reflexivity.
  split; [reflexivity|]. exists "m"%char, "y.notes". split; [reflexivity|].
  discriminate.
Defined.

(** A name without a dot has no extension. *)
Lemma splitext_no_dot (nm : string) :
  occurs "." nm = false -> snd (splitext nm) = "".
Proof.
  intros H. unfold splitext, rfind. rewrite (rfind_from_absent _ _ H).
  pose proof (rfind_from_lower_bound "/" nm 0 (-1)) as B.
  replace (rfind_from "/" nm 0 (-1) <? -1)%Z with false
    by (symmetry; apply Z.ltb_ge; lia).
  reflexivity.
Qed.

(** A dot-file has no extension. *)
Lemma splitext_dot_file (rest : string) :
  occurs "." rest = false -> occurs "/" rest = false ->
  snd (splitext (String "." rest)) = "".
Proof.
  intros Hdot Hsl. unfold splitext, rfind.
  assert (Hno : occurs "/" (String "." rest) = false) by (cbn; exact Hsl).
  rewrite (rfind_from_absent _ _ Hno).
  assert (R : rfind_from "." (String "." rest) 0 (-1) = 0%Z)
    by exact (rfind_from_last "." "" rest Hdot 0%Z (-1)%Z).
  rewrite R. reflexivity.
Qed.

(** The three stages that go by the extension let a candidate pass, on
    every host, when its extension is neither [.zip] nor [.xml]. *)
Lemma extension_gated_stages_skip (settings : Settings) (host : Host)
    (f : UploadedFile) :
  declared_extension f <> ".zip" -> declared_extension f <> ".xml" ->
  passes (validate_mime_type settings host f) /\
  passes (validate_xml_well_formedness host f) /\
  passes (validate_against_schema settings host f).
Proof.
  intros Nz Nx. split.
  - destruct (detected_mime_type_total host f) as (mime & D & _).
    unfold passes. rewrite (validate_mime_type_outcome _ _ _ _ D).
    apply String.eqb_neq in Nz, Nx. now rewrite Nz, Nx.
  - now apply xml_stages_skip_other_extensions.
Qed.

(** X2.  An upload whose name holds no dot at all (such as [datazip],
    which the extension stage lets through) has no extension: the
    MIME-type stage, the well-formedness stage and the schema stage let
    it pass on every host, whatever the sniffer and the XML tools say. *)
Theorem name_without_dot_is_not_checked (settings : Settings) (host : Host)
    (f : UploadedFile) :
  occurs "." (name f) = false ->
  declared_extension f = "" /\
  passes (validate_mime_type settings host f) /\
  passes (validate_xml_well_formedness host f) /\
  passes (validate_against_schema settings host f).
Proof.
  intros H. pose proof (splitext_no_dot _ H) as E.
  split; [exact E|].
  apply extension_gated_stages_skip; unfold declared_extension;
    rewrite E; discriminate.
Qed.

Lemma name_without_dot_is_not_checked_witness :
  let host := Sample.host_with
                ("/tmp/notesxml: application/octet-stream" ++ Sample.newline)
                (inl IOError) None [] "not well-formed" 1 in
  let candidate := mkUploadedFile "notesxml" 1024 in
  passes (validate_extension candidate) /\
  passes (validate_mime_type Sample.settings host candidate) /\
  passes (validate_xml_well_formedness host candidate) /\
  passes (validate_against_schema Sample.settings host candidate).
Proof.
  intros host candidate. split; [reflexivity|].
  apply (name_without_dot_is_not_checked Sample.settings host candidate).
  reflexivity.
Defined.

(** X3.  An upload named like a dot-file, a dot followed by characters
    other than dot and slash (such as [.xml]), has no extension either:
    [splitext] skips the leading dot.  The MIME-type, well-formedness and
    schema stages let it pass on every host; when the characters after
    the dot are [xml] or [zip] in any case, the extension stage passes it
    as well. *)
Theorem dot_file_is_not_checked (settings : Settings) (host : Host)
    (f : UploadedFile) (rest : string) :
  name f = String "." rest ->
  occurs "." rest = false -> occurs "/" rest = false ->
  declared_extension f = "" /\
  passes (validate_mime_type settings host f) /\
  passes (validate_xml_well_formedness host f) /\
  passes (validate_against_schema settings host f) /\
  (lower rest = "xml" \/ lower rest = "zip" -> passes (validate_extension f)).
Proof.
  intros Hn Hdot Hsl.
  assert (E : declared_extension f = "").
  { unfold declared_extension. rewrite Hn.
    now apply splitext_dot_file. }
  split; [exact E|].
  destruct (extension_gated_stages_skip settings host f) as (A & B & C);
    try (rewrite E; discriminate).
  repeat split; auto.
  intros Hl. apply validate_extension_passes_dotted. rewrite Hn.
  cbn [lower]. change (lower_ascii ".") with "."%char.
  destruct Hl as [-> | ->]; [right | left]; reflexivity.
Qed.

Lemma dot_file_is_not_checked_witness :
  let host := Sample.host_with
                ("/tmp/.XML: application/octet-stream" ++ Sample.newline)
                (inl IOError) None [] "not well-formed" 1 in
  let candidate := mkUploadedFile ".XML" 1024 in
  passes (validate_extension candidate) /\
  passes (validate_mime_type Sample.settings host candidate) /\
  passes (validate_xml_well_formedness host candidate) /\
  passes (validate_against_schema Sample.settings host candidate).
Proof.
  intros host candidate.
  destruct (dot_file_is_not_checked Sample.settings host candidate "XML"
              eq_refl eq_refl eq_refl) as (_ & A & B & C & D).
  repeat split; auto.
Defined.

(* ===================================================================== *)
(** * Stand-alone XML uploads *)
(* ===================================================================== *)

(** X4.  For an upload of extension [.xml] whose path on disk holds no
    double quote and no backslash, the well-formedness stage is decided
    by what [xmlwf] prints for the upload itself: output gives the
    single-file error, no output passes.  When the schema path is such a
    path too, the schema stage is decided by the exit code of [xmllint]
    for the upload: a non-zero code gives the single-file error, zero
    passes.  Nothing is extracted or listed: the host's archive has no
    say. *)
Theorem standalone_xml_is_checked_in_place (settings : Settings)
    (host : Host) (f : UploadedFile) :
  declared_extension f = ".xml" ->
  shell_safe (upload_path host f) = true ->
  let wf_output :=
    popen_argv_stdout host (xmlwf_argv (upload_path host f)) in
  let lint_code :=
    popen_wait host (xmllint_argv settings (upload_path host f)) in
  (rejects_with (validate_xml_well_formedness host f)
     xml_wellformedness_error <-> wf_output <> "") /\
  (passes (validate_xml_well_formedness host f) <-> wf_output = "") /\
  (shell_safe (SCHEMA_PATH settings) = true ->
   (rejects_with (validate_against_schema settings host f)
      xml_schema_conformity_error <-> lint_code <> 0%Z) /\
   (passes (validate_against_schema settings host f) <-> lint_code = 0%Z)).
Proof.
  intros E Hs wf_output lint_code. subst wf_output lint_code.
  unfold declared_extension in E. unfold upload_path in *.
  unfold passes, rejects_with, validate_xml_well_formedness,
    validate_against_schema, file_on_disk.
  rewrite E.
  change (".xml" =? ".zip") with false. change (".xml" =? ".xml") with true.
  cbv iota. rewrite (split_xmlwf_command _ Hs).
  cbn [bind Monad_either].
  split; [|split].
  - destruct (truthy _) eqn:T.
    + apply truthy_iff in T. split; auto.
    + apply negb_false_iff in T. apply String.eqb_eq in T.
      split; [discriminate | congruence].
  - destruct (truthy _) eqn:T.
    + apply truthy_iff in T. split; [discriminate | congruence].
    + apply negb_false_iff in T. apply String.eqb_eq in T. split; auto.
  - intros Hschema. rewrite (split_xmllint_command settings _ Hschema Hs).
    cbn [bind Monad_either].
    destruct (Z.eqb_spec
                (popen_wait host
                   (xmllint_argv settings (get_tmp_path host [name f])))
                0) as [C|C]; cbn [negb];
      (split; split; intros; break_cases; auto; congruence).
Qed.

Lemma standalone_xml_is_checked_in_place_witness :
  let host := Sample.host_with
                ("/tmp/data.xml: application/xml" ++ Sample.newline)
                (inl IOError) None [] "data.xml:1:0: syntax error" 0 in
  rejects_with
    (validate_xml_well_formedness host (mkUploadedFile "data.xml" 1024))
    xml_wellformedness_error.
Proof.
  intros host.
  destruct (standalone_xml_is_checked_in_place Sample.settings host
              (mkUploadedFile "data.xml" 1024) eq_refl eq_refl) as (R & _).
  apply R. discriminate.
Defined.

(** X5.  An upload whose name ends in [.xml] is never opened as an
    archive: the zip-integrity stage and the zip-contents stage let it
    pass on every host. *)
Theorem xml_upload_is_not_opened_as_archive (host : Host) (f : UploadedFile) :
  endswith (name f) ".xml" = true ->
  endswith (name f) "zip" = false /\
  passes (validate_zip_integrity host f) /\
  passes (validate_zip_contents host f).
Proof.
  intros Hx.
  assert (Hz : endswith (name f) "zip" = false).
  { destruct (endswith (name f) "zip") eqn:Z; [|reflexivity].
    pose proof (endswith_shorter _ "." "xml" Hx) as Hx3.
    assert (E : "zip" = "xml")
      by (apply (endswith_same_length (name f)); auto).
    discriminate E. }
  unfold passes.
  now rewrite validate_zip_integrity_outcome, validate_zip_contents_outcome, Hz.
Qed.

Lemma xml_upload_is_not_opened_as_archive_witness :
  let host := Sample.host_with "" (inl IOError) None [] "" 0 in
  passes (validate_zip_integrity host (mkUploadedFile "zip.xml" 1024)) /\
  passes (validate_zip_contents host (mkUploadedFile "zip.xml" 1024)).
Proof.
  intros host.
  exact (proj2 (xml_upload_is_not_opened_as_archive host
                  (mkUploadedFile "zip.xml" 1024) eq_refl)).
Defined.

(* ===================================================================== *)
(** * The entries of an archive *)
(* ===================================================================== *)

(** X6.  For a name ending in [zip] whose archive opens, the contents
    stage rejects exactly when some entry of the listing does not end in
    the three letters [xml], and passes exactly when all of them do; an
    archive without entries passes. *)
Theorem validate_zip_contents_rejects_iff (host : Host) (f : UploadedFile)
    (a : ZipArchive) :
  endswith (name f) "zip" = true ->
  ZipFile host (upload_path host f) = inr a ->
  (rejects_with (validate_zip_contents host f) zip_contents_error <->
   exists item, In item (namelist a) /\ endswith item "xml" = false) /\
  (passes (validate_zip_contents host f) <->
   forall item, In item (namelist a) -> endswith item "xml" = true) /\
  (namelist a = [] -> passes (validate_zip_contents host f)).
Proof.
  intros Hz E. unfold passes, rejects_with.
  rewrite validate_zip_contents_outcome, Hz, E.
  destruct (existsb (fun item => negb (endswith item "xml")) (namelist a))
    eqn:X.
  - apply existsb_exists in X as (item & I & N).
    apply negb_true_iff in N.
    repeat split; intros; break_cases; eauto.
    + specialize (H item I). congruence.
    + rewrite H in I. destruct I.
  - assert (A : forall item, In item (namelist a) ->
                  endswith item "xml" = true).
    { intros item I. destruct (endswith item "xml") eqn:N; [reflexivity|].
      assert (X' : existsb (fun item => negb (endswith item "xml"))
                     (namelist a) = true)
        by (apply existsb_exists; exists item; now rewrite N).
      congruence. }
    repeat split; intros; break_cases; auto.
    rewrite (A _ H) in H0. discriminate H0.
Qed.

Lemma validate_zip_contents_rejects_iff_witness :
  passes (validate_zip_contents (Sample.healthy_zip_host [])
            (mkUploadedFile "data.zip" 1024)).
Proof.
  destruct (validate_zip_contents_rejects_iff (Sample.healthy_zip_host [])
              (mkUploadedFile "data.zip" 1024)
              {| testzip := inr None; namelist := [] |} eq_refl eq_refl)
    as (_ & _ & Hempty).
  apply Hempty. reflexivity.
Defined.

(** X7.  The contents stage compares entry names as they are.  An entry
    that is a directory (its name ends in a slash) makes it reject a
    [.zip] candidate, and so does an entry whose last three characters
    are anything but [xml], upper case [XML] included. *)
Theorem validate_zip_contents_rejects_other_entries (host : Host)
    (f : UploadedFile) (a : ZipArchive) (item : string) :
  endswith (name f) ".zip" = true ->
  ZipFile host (upload_path host f) = inr a ->
  In item (namelist a) ->
  (endswith item "/" = true ->
   rejects_with (validate_zip_contents host f) zip_contents_error) /\
  (forall ending,
     String.length ending = 3 -> ending <> "xml" ->
     endswith item ending = true ->
     rejects_with (validate_zip_contents host f) zip_contents_error).
Proof.
  intros Hz E I. split.
  - intros Hd. apply (validate_zip_contents_rejects host f a item); auto.
    destruct (endswith item "xml") eqn:X; [|reflexivity].
    pose proof (endswith_shorter item "xm" "l" X) as Hl.
    assert (C : "/" = "l")
      by (apply (endswith_same_length item); auto).
    discriminate C.
  - intros ending L N He.
    apply (validate_zip_contents_rejects host f a item); auto.
    destruct (endswith item "xml") eqn:X; [|reflexivity].
    exfalso. apply N. apply (endswith_same_length item); auto.
Qed.

Lemma validate_zip_contents_rejects_other_entries_witness :
  rejects_with
    (validate_zip_contents (Sample.healthy_zip_host ["a.xml"; "B.XML"])
       (mkUploadedFile "data.zip" 1024))
    zip_contents_error.
Proof.
  destruct (validate_zip_contents_rejects_other_entries
              (Sample.healthy_zip_host ["a.xml"; "B.XML"])
              (mkUploadedFile "data.zip" 1024)
              {| testzip := inr None; namelist := ["a.xml"; "B.XML"] |} "B.XML"
              eq_refl eq_refl) as [_ H].
  - right. left. reflexivity.
  - apply (H "XML"); [reflexivity | discriminate | reflexivity].
Defined.

(** X8.  No archive with a corrupted member gets past both zip stages.
    When [testzip] reports a member of a [.zip] candidate's archive, the
    integrity stage rejects, unless the reported name is empty; in that
    case the integrity stage passes and the contents stage rejects,
    because the empty name does not end in [xml]. *)
Theorem corrupted_member_is_caught (host : Host) (f : UploadedFile)
    (a : ZipArchive) (member : string) :
  endswith (name f) ".zip" = true ->
  ZipFile host (upload_path host f) = inr a ->
  testzip a = inr (Some member) ->
  In member (namelist a) ->
  (member <> "" /\
   rejects_with (validate_zip_integrity host f) zip_corrupted_files_error) \/
  (member = "" /\
   passes (validate_zip_integrity host f) /\
   rejects_with (validate_zip_contents host f) zip_contents_error).
Proof.
  intros Hz E T I. unfold passes, rejects_with.
  rewrite validate_zip_integrity_outcome, (endswith_zip_of_dotted _ Hz), E, T.
  destruct (string_dec member "") as [->|N].
  - right. repeat split.
    apply (validate_zip_contents_rejects host f a ""); auto.
  - left. split; [exact N|]. cbn [truthy_opt].
    now rewrite (proj2 (truthy_iff member) N).
Qed.

Lemma corrupted_member_is_caught_witness :
  let broken := {| testzip := inr (Some ""); namelist := ["a.xml"; ""] |} in
  let host := Sample.host_with "" (inr broken) None [] "" 0 in
  passes (validate_zip_integrity host (mkUploadedFile "data.zip" 1024)) /\
  rejects_with (validate_zip_contents host (mkUploadedFile "data.zip" 1024))
    zip_contents_error.
Proof.
  intros broken host.
  destruct (corrupted_member_is_caught host (mkUploadedFile "data.zip" 1024)
              broken "" eq_refl eq_refl eq_refl) as [[N _]|(_ & P & R)].
  - right. left. reflexivity.
  - exfalso. apply N. reflexivity.
  - split; assumption.
Defined.


(* ===================================================================== *)
(** * Reading the sniffer's line *)
(* ===================================================================== *)

Lemma reversed_append (a b : string) :
  reversed (a ++ b) = reversed b ++ reversed a.
Proof.
  induction a as [|c a IH]; simpl.
  - now rewrite append_nil_r.
  - now rewrite IH, append_assoc.
Qed.

Lemma reversed_involutive (s : string) : reversed (reversed s) = s.
Proof.
  induction s as [|c s IH]; simpl; [reflexivity|].
  now rewrite reversed_append, IH.
Qed.

Lemma lstrip_append_visible (a : string) (c : ascii) (b : string) :
  isspace c = false ->
  lstrip (a ++ String c b) = lstrip a ++ String c b.
Proof.
  intros Hc. induction a as [|x a IH]; cbn [append lstrip].
  - now rewrite Hc.
  - destruct (isspace x); [exact IH | reflexivity].
Qed.

Lemma rstrip_visible (s : string) (c : ascii) :
  isspace c = false -> rstrip (s ++ String c "") = s ++ String c "".
Proof.
  intros Hc. unfold rstrip. rewrite reversed_append. cbn [reversed append lstrip].
  rewrite Hc. cbn [reversed]. now rewrite reversed_involutive.
Qed.

Lemma rstrip_space (s : string) (w : ascii) :
  isspace w = true -> rstrip (s ++ String w "") = rstrip s.
Proof.
  intros Hw. unfold rstrip. rewrite reversed_append. cbn [reversed append lstrip].
  now rewrite Hw.
Qed.

(** Stripping a line [path: mime] followed by a line feed leaves the
    path without its leading blanks, the separator and the MIME type. *)
Lemma strip_sniffer_line (path m : string) (c : ascii) :
  isspace c = false ->
  strip (path ++ ": " ++ (m ++ String c "") ++ linefeed)
  = lstrip path ++ ": " ++ (m ++ String c "").
Proof.
  intros Hc. unfold strip.
  change (path ++ ": " ++ (m ++ String c "") ++ linefeed)
    with (path ++ String ":" (" " ++ (m ++ String c "") ++ linefeed)).
  rewrite lstrip_append_visible by reflexivity.
  change (lstrip path ++ String ":" (" " ++ (m ++ String c "") ++ linefeed))
    with (lstrip path ++ (": " ++ (m ++ String c "") ++ linefeed)).
  rewrite <- (append_assoc ": " (m ++ String c "") linefeed).
  rewrite <- (append_assoc (lstrip path) (": " ++ (m ++ String c "")) linefeed).
  unfold linefeed. rewrite rstrip_space by reflexivity.
  rewrite <- (append_assoc ": " m (String c "")).
  rewrite <- (append_assoc (lstrip path) (": " ++ m) (String c "")).
  now rewrite rstrip_visible.
Qed.

(** X10.  When [file] prints its usual line, the path, a colon and a
    space, the MIME type and a line feed, the validator reads exactly
    that MIME type, also when the path itself holds a colon followed by a
    space or starts with blanks.  The MIME type is any non-empty string
    that does not end in a blank and holds no colon followed by a
    space. *)
Theorem sniffer_line_is_parsed (host : Host) (f : UploadedFile)
    (path m : string) (c : ascii) :
  isspace c = false ->
  free_of ": " (m ++ String c "") ->
  popen_stdout host (sniff_command host f)
    = path ++ ": " ++ (m ++ String c "") ++ linefeed ->
  detected_mime_type host f = inr (m ++ String c "").
Proof.
  intros Hc F O. unfold detected_mime_type, split.
  rewrite O, (strip_sniffer_line path m c Hc).
  apply (last_item_split_from _ F (lstrip path) "" 0). now left.
Qed.

(** A string without a colon holds no separator. *)
Lemma free_of_without_colon (t : string) :
  occurs ":" t = false -> free_of ": " t.
Proof.
  intros H a b E. rewrite E, occurs_append in H.
  apply orb_false_iff in H as [_ H]. cbn in H. discriminate H.
Qed.

Lemma sniffer_line_is_parsed_witness :
  let host := Sample.host_with
                ("  /tmp/a: b.zip: application/zip" ++ linefeed)
                (inl BadZipFile) None [] "" 0 in
  detected_mime_type host (mkUploadedFile "a: b.zip" 1024)
    = inr "application/zip".
Proof.
  intros host.
  apply (sniffer_line_is_parsed host (mkUploadedFile "a: b.zip" 1024)
           "  /tmp/a: b.zip" "application/zi" "p").
  - reflexivity.
  - apply free_of_without_colon. reflexivity.
  - reflexivity.
Defined.

(* ===================================================================== *)
(** * The last three characters *)
(* ===================================================================== *)

Lemma endswith_append_exact (pre ending x : string) :
  String.length x = String.length ending ->
  endswith (pre ++ ending) x = (ending =? x).
Proof.
  intros L. unfold endswith. rewrite length_append, L.
  replace (String.length pre + String.length ending - String.length ending)
    with (String.length pre) by lia.
  rewrite slice_from_append.
  replace (String.length ending <=? String.length pre + String.length ending)%nat
    with true by (symmetry; apply Nat.leb_le; lia).
  reflexivity.
Qed.

Lemma endswith_too_short (s x : string) :
  String.length s < String.length x -> endswith s x = false.
Proof.
  intros L. unfold endswith.
  replace (String.length x <=? String.length s)%nat with false
    by (symmetry; apply Nat.leb_gt; lia).
  reflexivity.
Qed.

(** X11.  The extension stage looks at the last three characters of the
    name and at nothing else: two names with the same last three
    characters get the same outcome, whatever comes before them and
    whatever the sizes; and a name of fewer than three characters, the
    empty name included, is rejected with the extension error. *)
Theorem validate_extension_reads_last_three :
  (forall pre1 pre2 ending sz1 sz2,
     String.length ending = 3 ->
     validate_extension (mkUploadedFile (pre1 ++ ending) sz1)
     = validate_extension (mkUploadedFile (pre2 ++ ending) sz2)) /\
  (forall f,
     String.length (name f) < 3 ->
     rejects_with (validate_extension f) extension_error).
Proof.
  split.
  - intros pre1 pre2 ending sz1 sz2 L. unfold validate_extension.
    cbn [name]. rewrite !lower_append.
    rewrite !endswith_append_exact by (rewrite lower_length; now rewrite L).
    reflexivity.
  - intros f L. apply validate_extension_outcome.
    rewrite !endswith_too_short by (rewrite lower_length; exact L).
    reflexivity.
Qed.

Lemma validate_extension_reads_last_three_witness :
  validate_extension (mkUploadedFile "report.Xml" 10)
  = validate_extension (mkUploadedFile "Xml" 99) /\
  rejects_with (validate_extension (mkUploadedFile "ip" 10)) extension_error.
Proof.
  destruct validate_extension_reads_last_three as [Hsame Hshort].
  split.
  - apply (Hsame "report." "" "Xml"). reflexivity.
  - apply Hshort. simpl. lia.
Defined.

(* ===================================================================== *)
(** * The limit shown to the user *)
(* ===================================================================== *)

(** X12.  The size error shows the limit in whole megabytes, rounded
    down: when the size stage rejects, the number [mb] in its error and
    message satisfies [mb * 1024 * 1024 <= MAX_UPLOAD_SIZE <
    (mb + 1) * 1024 * 1024], and the rejected file is larger than
    [MAX_UPLOAD_SIZE], hence larger than the limit shown.  A configured
    limit of less than one megabyte is shown as [0MB]. *)
Theorem size_error_shows_whole_megabytes (settings : Settings)
    (f : UploadedFile) (e : ValidationError) :
  rejects_with (validate_size settings f) e ->
  exists mb,
    kind e = Size mb /\
    message e =
      "Upload too large. The current limit is " ++ str_of_int mb ++ "MB." /\
    (mb * 1048576 <= MAX_UPLOAD_SIZE settings < (mb + 1) * 1048576)%Z /\
    (mb * 1048576 < size f)%Z /\
    ((0 <= MAX_UPLOAD_SIZE settings < 1048576)%Z ->
     message e = "Upload too large. The current limit is 0MB.").
Proof.
  unfold rejects_with. rewrite validate_size_cases.
  destruct (Z.ltb_spec (MAX_UPLOAD_SIZE settings) (size f)) as [Hbig|Hle];
    [|discriminate].
  intros E. injection E as <-.
  exists (MAX_UPLOAD_SIZE settings / 1048576)%Z.
  pose proof (Z.div_mod (MAX_UPLOAD_SIZE settings) 1048576 ltac:(lia)) as D.
  pose proof (Z.mod_pos_bound (MAX_UPLOAD_SIZE settings) 1048576 ltac:(lia))
    as B.
  repeat split; try lia.
  intros Hsmall. cbn [message size_error].
  change (1024 ^ 2)%Z with 1048576%Z.
  now rewrite (Z.div_small _ _ Hsmall).
Qed.

Lemma size_error_shows_whole_megabytes_witness :
  let settings := {| MAX_UPLOAD_SIZE := 1572864;
                     SCHEMA_PATH := "";
                     XML_MIME_TYPES := [];
                     ZIP_MIME_TYPES := [] |} in
  exists mb,
    kind (size_error settings) = Size mb /\
    (mb * 1048576 <= 1572864 < (mb + 1) * 1048576)%Z.
Proof.
  intros settings.
  destruct (size_error_shows_whole_megabytes settings
              (mkUploadedFile "data.zip" 1572865) (size_error settings)
              eq_refl) as (mb & K & _ & B & _).
  exists mb. split; [exact K | exact B].
Defined.

(* ===================================================================== *)
(** * The order of a directory listing *)
(* ===================================================================== *)

Lemma for_each_ext {A : Type} (xs : list A) (b1 b2 : A -> M unit) :
  (forall x, b1 x = b2 x) -> for_each xs b1 = for_each xs b2.
Proof.
  intros H. induction xs as [|x xs IH]; simpl; [reflexivity|].
  now rewrite H, IH.
Qed.

(** A loop whose body can only raise [e] gives the same outcome on a
    rearranged list. *)
Lemma for_each_permutation {A : Type} (xs ys : list A) (body : A -> M unit)
    (e : exn) :
  (forall x, body x = inr tt \/ body x = inl e) ->
  Permutation xs ys ->
  for_each xs body = for_each ys body.
Proof.
  intros Hb P.
  destruct (for_each_raises_iff xs body e Hb) as [Rx [Px|Px]];
    destruct (for_each_raises_iff ys body e Hb) as [Ry [Py|Py]];
    try congruence.
  - apply Ry in Py as (y & I & E).
    assert (Fx : for_each xs body = inl e).
    { apply Rx. exists y. split; [|exact E].
      apply (Permutation_in y (Permutation_sym P) I). }
    congruence.
  - apply Rx in Px as (x & I & E).
    assert (Fy : for_each ys body = inl e).
    { apply Ry. exists x. split; [|exact E].
      apply (Permutation_in x P I). }
    congruence.
Qed.

(** X13.  When the path of every entry the stages look at holds no double
    quote and no backslash, and neither does the schema path, the two XML
    stages do not depend on the order in which the extracted directory is
    listed: on two hosts that answer alike except that their listings
    are rearrangements of each other, each stage gives the same outcome
    for the upload. *)
Theorem xml_stages_ignore_listing_order (settings : Settings)
    (h1 h2 : Host) (f : UploadedFile) :
  (forall parts, get_tmp_path h1 parts = get_tmp_path h2 parts) ->
  (forall argv, popen_argv_stdout h1 argv = popen_argv_stdout h2 argv) ->
  (forall argv, popen_wait h1 argv = popen_wait h2 argv) ->
  (forall p, extract_archive h1 p = extract_archive h2 p) ->
  (forall p, Permutation (listdir h1 p) (listdir h2 p)) ->
  (forall folder,
     extract_archive h1 (upload_path h1 f) = Some folder ->
     entries_shell_safe h1 folder) ->
  shell_safe (SCHEMA_PATH settings) = true ->
  validate_xml_well_formedness h1 f = validate_xml_well_formedness h2 f /\
  validate_against_schema settings h1 f = validate_against_schema settings h2 f.
Proof.
  intros Hg Ho Hw He Hl Hsafe' Hschema.
  destruct (string_dec (declared_extension f) ".zip") as [Z|Z].
  - rewrite !(validate_xml_well_formedness_zip _ f Z),
      !(validate_against_schema_zip settings _ f Z).
    unfold upload_path in *. rewrite Hg, He in *.
    destruct (extract_archive h2 (get_tmp_path h2 [name f])) as [folder|];
      [|split; reflexivity].
    pose proof (Hsafe' folder eq_refl) as Hsafe.
    assert (Hsafe2 : entries_shell_safe h2 folder).
    { intros n I C. rewrite <- Hg. apply Hsafe; [|exact C].
      rewrite Hg. apply (Permutation_in n (Permutation_sym (Hl _)) I). }
    destruct (truthy folder); [|split; reflexivity].
    split.
    + rewrite (for_each_ext_in (listdir h1 (get_tmp_path h1 [folder]))
                 (check_member_well_formed h1 folder)
                 (member_well_formed h1 folder))
        by (intros n I; apply check_member_well_formed_safe;
            now apply Hsafe).
      rewrite (for_each_ext_in (listdir h2 (get_tmp_path h2 [folder]))
                 (check_member_well_formed h2 folder)
                 (member_well_formed h2 folder))
        by (intros n I; apply check_member_well_formed_safe;
            now apply Hsafe2).
      rewrite Hg.
      rewrite (for_each_permutation _ _ _
                 (Invalid files_wellformedness_error)
                 (fun n => proj2 (proj2
                    (member_well_formed_outcome h1 folder n)))
                 (Hl _)).
      apply for_each_ext. intros n. unfold member_well_formed.
      now rewrite Hg, Ho.
    + rewrite (for_each_ext_in (listdir h1 (get_tmp_path h1 [folder]))
                 (check_member_against_schema settings h1 folder)
                 (member_against_schema settings h1 folder))
        by (intros n I; apply check_member_against_schema_safe;
            [exact Hschema | now apply Hsafe]).
      rewrite (for_each_ext_in (listdir h2 (get_tmp_path h2 [folder]))
                 (check_member_against_schema settings h2 folder)
                 (member_against_schema settings h2 folder))
        by (intros n I; apply check_member_against_schema_safe;
            [exact Hschema | now apply Hsafe2]).
      rewrite Hg.
      rewrite (for_each_permutation _ _ _
                 (Invalid files_schema_conformity_error)
                 (fun n => proj2 (proj2
                    (member_against_schema_outcome settings h1 folder n)))
                 (Hl _)).
      apply for_each_ext. intros n. unfold member_against_schema.
      now rewrite Hg, Hw.
  - unfold validate_xml_well_formedness, validate_against_schema,
      file_on_disk.
    unfold declared_extension in Z. apply String.eqb_neq in Z. rewrite Z.
    rewrite Hg.
    destruct (_ =? ".xml"); [|split; reflexivity].
    split.
    + destruct (Shlex.split _) as [e|argv]; [reflexivity|].
      cbn [bind Monad_either]. now rewrite Ho.
    + destruct (Shlex.split _) as [e|argv]; [reflexivity|].
      cbn [bind Monad_either]. now rewrite Hw.
Qed.

Lemma xml_stages_ignore_listing_order_witness :
  let zip := inr {| testzip := inr None; namelist := ["a.xml"; "b.xml"] |} in
  let h1 := Sample.host_with "" zip (Some "data") ["a.xml"; "b.xml"]
              "b.xml:1:0: syntax error" 1 in
  let h2 := Sample.host_with "" zip (Some "data") ["b.xml"; "a.xml"]
              "b.xml:1:0: syntax error" 1 in
  validate_xml_well_formedness h1 (mkUploadedFile "data.zip" 1024)
  = validate_xml_well_formedness h2 (mkUploadedFile "data.zip" 1024).
Proof.
  intros zip h1 h2.
  apply (xml_stages_ignore_listing_order Sample.settings h1 h2
           (mkUploadedFile "data.zip" 1024)); try reflexivity.
  - intros p. apply perm_swap.
  - intros folder E. injection E as <-.
    intros n [<-|[<-|[]]] _; reflexivity.
Defined.
